(** * AI Zoo: conversational control logic of [BaseDiscordBot]

    A shallow embedding of [bots/base_bot.py]: the inbound-message handler
    with its cooldown gate, the response task, persona loading, the
    sender-dependent system prompt and the introduction message.

    Python [str] values are byte strings in UTF-8 (the string literals of
    the source are copied as they stand), [int] values are [Z], a [dict]
    with string keys is a [gmap string _].  Everything the bot does to the
    outside (logging, channel sends, task creation) is recorded as a trace
    of [Effect]s; everything the outside decides (results of awaited
    calls, random draws, the clock) is an explicit argument. *)

From stdpp Require Import gmap strings list pretty.
From Stdlib Require Import ZArith Ascii String Lia.

Local Open Scope Z_scope.

(** ** Python string operations used by the bot *)

Module PyStr.

(** [str.lower] on one byte.  Only the ASCII capitals move; the bytes of
    multi-byte characters are left alone.  The Unicode-aware [str.lower]
    yields an ASCII letter from a non-ASCII character only for [i] and
    [k]; the substring tests of this file come down to the needles
    "gpt-4o" and "claude", which have neither, so on them the two
    agree. *)
Definition lower_ascii (c : ascii) : ascii :=
  let n := N_of_ascii c in
  if ((65 <=? n) && (n <=? 90))%N then ascii_of_N (n + 32) else c.

Fixpoint lower (s : string) : string :=
  match s with
  | EmptyString => EmptyString
  | String c r => String (lower_ascii c) (lower r)
  end.

(** [s.startswith(p)] *)
Definition startswith (s p : string) : bool := String.prefix p s.

(** [needle in hay] *)
Fixpoint contains (needle hay : string) : bool :=
  String.prefix needle hay ||
  match hay with
  | EmptyString => false
  | String _ r => contains needle r
  end.

(** [sep.join(parts)] *)
Definition join (sep : string) (parts : list string) : string :=
  String.concat sep parts.

(** Truthiness of a [str]: the empty string is falsy. *)
Definition truthy (s : string) : bool :=
  match s with EmptyString => false | String _ _ => true end.

Definition LF : ascii := "010"%char.

(** The text split at every line feed; [lines ""] is one empty line. *)
Fixpoint lines (s : string) : list string :=
  match s with
  | EmptyString => [EmptyString]
  | String c r =>
      if Ascii.eqb c LF then EmptyString :: lines r
      else match lines r with
           | [] => [String c EmptyString]
           | l :: ls => String c l :: ls
           end
  end.

(** No line feed anywhere in the text. *)
Fixpoint single_line (s : string) : bool :=
  match s with
  | EmptyString => true
  | String c r => negb (Ascii.eqb c LF) && single_line r
  end.

End PyStr.

(** ** Values of the persona dictionary

    The persona is a [Dict[str, Any]] filled by the Notion service: its
    fields are text, or (for [interests]) a list of text. *)

Inductive Value : Type :=
| VStr (s : string)
| VList (items : list string).

Module PyRepr.

Definition hex_digit (n : N) : ascii :=
  if (n <? 10)%N then ascii_of_N (48 + n) else ascii_of_N (87 + n).

(** [repr] of one character inside a string quoted with [q].  ASCII is
    exact.  The bytes of a multi-byte character are kept, as [repr] does
    for a printable one; the escape that [repr] gives to a multi-byte
    character it does not count as printable (U+3000, say) is not
    modelled. *)
Definition repr_char (q : ascii) (c : ascii) : string :=
  let n := N_of_ascii c in
  if Ascii.eqb c "\"%char then "\\"
  else if Ascii.eqb c q then String "\"%char (String q EmptyString)
  else if (n =? 10)%N then "\n"
  else if (n =? 13)%N then "\r"
  else if (n =? 9)%N then "\t"
  else if ((n <? 32) || (n =? 127))%N
       then String "\"%char (String "x"%char
              (String (hex_digit (n / 16)) (String (hex_digit (n mod 16)) EmptyString)))
  else String c EmptyString.

Fixpoint repr_body (q : ascii) (s : string) : string :=
  match s with
  | EmptyString => EmptyString
  | String c r => repr_char q c +:+ repr_body q r
  end.

(** [repr(s)] for a [str]: single quotes unless the text has a single
    quote and no double quote. *)
Definition repr_str (s : string) : string :=
  let sq := "'"%char in
  let dq := ascii_of_N 34 in
  let q := if PyStr.contains (String sq EmptyString) s
              && negb (PyStr.contains (String dq EmptyString) s)
           then dq else sq in
  String q (repr_body q s +:+ String q EmptyString).

(** [str(v)], as an f-string renders a persona field. *)
Definition str (v : Value) : string :=
  match v with
  | VStr s => s
  | VList items => "[" +:+ PyStr.join ", " (map repr_str items) +:+ "]"
  end.

End PyRepr.

(** ** Outcomes of calls that may raise

    An exception is represented by the text that [str(e)] gives, which is
    all the bot ever does with one. *)

Inductive outcome (A : Type) : Type :=
| Ok (a : A)
| Raise (e : string).
Arguments Ok {A} a.
Arguments Raise {A} e.

(** ** The conversation store

    [utils/conversation.py] is not part of the sources at hand; the bot
    only calls it. *)

Module ConversationManager.

Record Utterance : Type := {
  utt_author : string;
  utt_content : string;
  is_bot_reply : bool
}.

(** Modelled from the spec: the class [ConversationManager] of
    [utils/conversation.py] is missing.  Design section 4.1: an ordered
    sequence of utterances plus a turn counter. *)
Record t : Type := {
  history : list Utterance;
  turns : Z
}.

Definition empty : t := {| history := []; turns := 0 |}.

(** Modelled from the spec: [add_message] is missing.  It appends an
    utterance and increments the turn counter only when the utterance is
    not the bot's own reply.  The bot marks its own reply by passing
    [bot_name]; that is the flag [bot_reply] here. *)
Definition add_message (cm : t) (author content : string) (bot_reply : bool) : t :=
  {| history := history cm ++
       [{| utt_author := author; utt_content := content; is_bot_reply := bot_reply |}];
     turns := if bot_reply then turns cm else turns cm + 1 |}.

(** Modelled from the spec: [should_cool_down] is missing.  True iff the
    turn count has reached [max_turns]. *)
Definition should_cool_down (cm : t) (max_turns : Z) : bool :=
  max_turns <=? turns cm.

(** Modelled from the spec: [reset_conversation_turns] is missing.  The
    counter goes to zero, the stored utterances stay. *)
Definition reset_conversation_turns (cm : t) : t :=
  {| history := history cm; turns := 0 |}.

Inductive Role : Type := system | assistant | user.
Inductive Dialect : Type := OpenAI | Anthropic.

Record ChatMessage : Type := { role : Role; text : string }.

Record Rendered : Type := { dialect : Dialect; messages : list ChatMessage }.

Definition render_utterance (u : Utterance) : ChatMessage :=
  {| role := if is_bot_reply u then assistant else user; text := utt_content u |}.

(** Modelled from the spec: [format_for_openai] and
    [format_for_anthropic] are missing.  The system prompt comes first,
    then every stored utterance in order, tagged [assistant] for the
    bot's own replies and [user] otherwise; the two dialects carry the
    same content.  A prompt that was never loaded renders as no text. *)
Definition format_for (d : Dialect) (cm : t) (system_prompt : option string) : Rendered :=
  {| dialect := d;
     messages := {| role := system; text := default EmptyString system_prompt |}
                 :: map render_utterance (history cm) |}.

Definition format_for_openai := format_for OpenAI.
Definition format_for_anthropic := format_for Anthropic.

End ConversationManager.

(** ** Messages, configuration and the bot object *)

Record Member : Type := {
  id : Z;
  display_name : string
}.

Record Message : Type := {
  author : Member;
  channel : Z;          (* message.channel.id *)
  content : string
}.

(** The attributes that [__init__] sets once. *)
Record Config : Type := {
  user : Z;                       (* self.user, compared with message.author *)
  command_prefix : string;
  notion_character_name : string;
  character_name : string;
  channel_id : Z;
  min_response_delay : Z;
  max_response_delay : Z;
  max_conversation_turns : Z;
  base_role : string
}.

(** The attributes that change while the bot runs. *)
Record Bot : Type := {
  cfg : Config;
  conversation_manager : ConversationManager.t;
  character : option (gmap string Value);
  system_prompt : option string;
  in_cooldown : bool;
  cooldown_until : Z
}.

Definition set_conversation_manager (self : Bot) (cm : ConversationManager.t) : Bot :=
  {| cfg := cfg self; conversation_manager := cm; character := character self;
     system_prompt := system_prompt self; in_cooldown := in_cooldown self;
     cooldown_until := cooldown_until self |}.

Definition set_character (self : Bot) (c : option (gmap string Value)) : Bot :=
  {| cfg := cfg self; conversation_manager := conversation_manager self; character := c;
     system_prompt := system_prompt self; in_cooldown := in_cooldown self;
     cooldown_until := cooldown_until self |}.

Definition set_system_prompt (self : Bot) (p : option string) : Bot :=
  {| cfg := cfg self; conversation_manager := conversation_manager self;
     character := character self; system_prompt := p; in_cooldown := in_cooldown self;
     cooldown_until := cooldown_until self |}.

Definition set_in_cooldown (self : Bot) (b : bool) : Bot :=
  {| cfg := cfg self; conversation_manager := conversation_manager self;
     character := character self; system_prompt := system_prompt self; in_cooldown := b;
     cooldown_until := cooldown_until self |}.

Definition set_cooldown_until (self : Bot) (t : Z) : Bot :=
  {| cfg := cfg self; conversation_manager := conversation_manager self;
     character := character self; system_prompt := system_prompt self;
     in_cooldown := in_cooldown self; cooldown_until := t |}.

(** Truthiness of [self.character]: [None] and the empty dict are falsy. *)
Definition character_truthy (c : option (gmap string Value)) : bool :=
  match c with
  | Some d => negb (bool_decide (d = ∅))
  | None => false
  end.

(** ** What the bot does to the outside *)

Inductive LogLevel : Type := INFO | WARNING | ERROR.

Inductive Task : Type :=
| RespondToMessage (m : Message)
| ResetCooldownAfter (minutes : Z).

Inductive Effect : Type :=
| Log (level : LogLevel) (text : string)
| ProcessCommands (m : Message)
| CreateTask (t : Task)
| DelayResponse (lo hi : Z)
| SimulateTyping (chan : Z) (len : Z)
| GenerateResponse (msgs : ConversationManager.Rendered) (model : string)
| ChannelSend (chan : Z) (body : string)
| Sleep (seconds : Z)
| GetCharacter (name : string).

(** ** What the outside decides *)

(** [random.randint(a, b)] on the raw draw [r] of the generator: some
    integer of the inclusive range. *)
Definition randint (a b : Z) (r : Z) : Z := a + r mod (b - a + 1).

Record World : Type := {
  cooldown_draw : Z;                           (* raw draw behind randint(1, 3) *)
  typing_draw : Z;                             (* raw draw behind randint(50, 200) *)
  delay_response : outcome unit;
  simulate_typing : outcome unit;
  generate_response : outcome string;
  channel_send : outcome unit;
  get_character : outcome (option (gmap string Value));
  get_channel : option string                  (* the channel's name, if found *)
}.

(** The methods a subclass may override. *)
Class Hooks : Type := {
  should_respond_to_message : Bot -> Message -> bool;
  get_additional_introduction_info : Bot -> option string
}.

(** The base class: always respond, nothing to add to the introduction. *)
Definition BaseHooks : Hooks :=
  {| should_respond_to_message := fun _ _ => true;
     get_additional_introduction_info := fun _ => None |}.

(** [NotionService.format_character_prompt], which is not part of the
    sources at hand: it renders a persona and the base role as the system
    prompt, or raises. *)
Class NotionService : Type := {
  format_character_prompt : gmap string Value -> string -> outcome string
}.

(** ** A state, exception and trace monad for the methods of the bot *)

Definition M (A : Type) : Type := Bot -> outcome A * Bot * list Effect.

Definition ret {A} (a : A) : M A := fun self => (Ok a, self, []).

Definition bind {A B} (m : M A) (k : A -> M B) : M B := fun self =>
  match m self with
  | (Ok a, self1, t1) => let '(r, self2, t2) := k a self1 in (r, self2, t1 ++ t2)
  | (Raise e, self1, t1) => (Raise e, self1, t1)
  end.

Declare Scope bot_scope.
Delimit Scope bot_scope with bot.
Notation "x ← m ; k" := (bind m (fun x => k))
  (at level 20, m at level 100, k at level 200, only parsing) : bot_scope.
Notation "' p ← m ; k" := (bind m (fun x => match x with p => k end))
  (at level 20, p pattern, m at level 100, k at level 200, only parsing) : bot_scope.
Notation "m ;; k" := (bind m (fun _ => k))
  (at level 100, k at level 200, only parsing, right associativity) : bot_scope.

Definition emit (fx : Effect) : M unit := fun self => (Ok tt, self, [fx]).
Definition logger (level : LogLevel) (text : string) : M unit := emit (Log level text).
Definition get : M Bot := fun self => (Ok self, self, []).
Definition modify (f : Bot -> Bot) : M unit := fun self => (Ok tt, f self, []).
Definition lift {A} (o : outcome A) : M A := fun self => (o, self, []).

(** An awaited call on a collaborator: the call is recorded, its result is
    the one the outside gives. *)
Definition await {A} (fx : Effect) (result : outcome A) : M A :=
  fun self => (result, self, [fx]).

(** [try: body  except Exception as e: handler(e)] *)
Definition try_except (body : M unit) (handler : string -> M unit) : M unit := fun self =>
  match body self with
  | (Ok a, self1, t1) => (Ok a, self1, t1)
  | (Raise e, self1, t1) => let '(r, self2, t2) := handler e self1 in (r, self2, t1 ++ t2)
  end.

(** ** [on_message] *)

Section OnMessage.
Context `{Hooks}.

(** [now] is [asyncio.get_event_loop().time()], in seconds.  The one
    await of the handler, [process_commands], comes before the cooldown
    check: from that check to the end the handler runs without
    interruption, and so it is one step here. *)
Definition on_message (now : Z) (w : World) (message : Message) (self : Bot)
  : Bot * list Effect :=
  (* Ignore messages from self *)
  if bool_decide (id (author message) = user (cfg self)) then (self, [])
  (* Only respond in the specified channel *)
  else if negb (bool_decide (channel_id (cfg self) = 0))
          && negb (bool_decide (channel message = channel_id (cfg self)))
  then (self, [])
  else
    (* Process commands first *)
    let t := [ProcessCommands message] in
    (* Don't respond to commands *)
    if PyStr.startswith (content message) (command_prefix (cfg self)) then (self, t)
    (* Check if we're in cooldown *)
    else if in_cooldown self then (self, t)
    else
      (* Add message to conversation history *)
      let self := set_conversation_manager self
        (ConversationManager.add_message (conversation_manager self)
           (display_name (author message)) (content message) false) in
      (* Check if we should respond based on conversation turns *)
      if ConversationManager.should_cool_down (conversation_manager self)
           (max_conversation_turns (cfg self))
      then
        let t := t ++ [Log INFO ("Cooling down after "
                         +:+ pretty (max_conversation_turns (cfg self))
                         +:+ " conversation turns")] in
        let self := set_in_cooldown self true in
        let self := set_conversation_manager self
          (ConversationManager.reset_conversation_turns (conversation_manager self)) in
        (* Set cooldown for a random time between 1-3 minutes *)
        let cooldown_minutes := randint 1 3 (cooldown_draw w) in
        let self := set_cooldown_until self (now + cooldown_minutes * 60) in
        (* Schedule cooldown reset *)
        (self, t ++ [CreateTask (ResetCooldownAfter cooldown_minutes)])
      else if should_respond_to_message self message
      then (self, t ++ [CreateTask (RespondToMessage message)])
      else (self, t).

End OnMessage.

(** ** [reset_cooldown_after]

    The task logs, sleeps, and when it is woken clears the flag. *)

Definition reset_cooldown_after_start (minutes : Z) : M unit :=
  (logger INFO ("Cooling down for " +:+ pretty minutes +:+ " minutes") ;;
   emit (Sleep (minutes * 60)))%bot.

Definition reset_cooldown_after_wake : M unit :=
  (modify (fun self => set_in_cooldown self false) ;;
   logger INFO "Cooldown ended")%bot.

Definition reset_cooldown_after (minutes : Z) : M unit :=
  (reset_cooldown_after_start minutes ;; reset_cooldown_after_wake)%bot.

(** ** [_adjust_system_prompt_for_sender] *)

Definition bot_names : list string :=
  ["gpt-4o-animal"; "claude-animal"; "gpt-4o"; "claude"].

Definition bot_response_guidance : string :=
  Eval vm_compute in
  PyStr.join (String PyStr.LF EmptyString)
    [ "";
      "            ";
      "現在、あなたは他のAIボットからの質問に応答しています。以下のガイドラインに従ってください：";
      "1. 「ご指摘の通りですね」「おっしゃる通りです」などの同意から始めないでください";
      "2. 質問に直接答え、相手の発言内容を先に知っていたかのような表現は避けてください";
      "3. 自分の考えや意見を述べる際は、「私は〜と考えます」「私の見解では〜」などの表現を使ってください";
      "4. 会話の自然な流れを維持しつつ、不自然な「先読み」を避けてください";
      "" ].

(** [any(bot_name.lower() in sender_name.lower() for bot_name in bot_names)] *)
Definition sender_is_bot (sender_name : string) : bool :=
  existsb (fun bot_name => PyStr.contains (PyStr.lower bot_name) (PyStr.lower sender_name))
          bot_names.

(** The prompt is [None] until the persona is loaded; [None += str] is a
    [TypeError]. *)
Definition _adjust_system_prompt_for_sender (self : Bot) (sender_name : string)
  : outcome (option string) :=
  let adjusted_prompt := system_prompt self in
  if sender_is_bot sender_name then
    match adjusted_prompt with
    | Some p => Ok (Some (p +:+ bot_response_guidance))
    | None => Raise "unsupported operand type(s) for +=: 'NoneType' and 'str'"
    end
  else Ok adjusted_prompt.

(** ** [respond_to_message] *)

(** [self.character.get("model", "gpt-4") if self.character else "gpt-4"] *)
Definition model_of (self : Bot) : Value :=
  if character_truthy (character self)
  then match character self with
       | Some c => default (VStr "gpt-4") (c !! "model")
       | None => VStr "gpt-4"
       end
  else VStr "gpt-4".

(** [model.startswith("gpt")]; a list has no such method. *)
Definition model_startswith (model : Value) (p : string) : outcome (string * bool) :=
  match model with
  | VStr s => Ok (s, PyStr.startswith s p)
  | VList _ => Raise "'list' object has no attribute 'startswith'"
  end.

Definition respond_to_message (w : World) (message : Message) : M unit :=
  try_except
    ((* Add random delay to simulate thinking/typing *)
     self ← get;
     await (DelayResponse (min_response_delay (cfg self)) (max_response_delay (cfg self)))
           (delay_response w) ;;
     (* Get model from character settings or default to gpt-4 *)
     self ← get;
     let model := model_of self in
     adjusted_system_prompt ←
       lift (_adjust_system_prompt_for_sender self (display_name (author message)));
     (* Format conversation history for LLM *)
     '(model_name, gpt) ← lift (model_startswith model "gpt");
     let messages :=
       if gpt
       then ConversationManager.format_for_openai (conversation_manager self)
              adjusted_system_prompt
       else ConversationManager.format_for_anthropic (conversation_manager self)
              adjusted_system_prompt in
     (* Simulate typing *)
     let message_length := randint 50 200 (typing_draw w) in
     await (SimulateTyping (channel message) message_length) (simulate_typing w) ;;
     (* Generate response from LLM *)
     response ← await (GenerateResponse messages model_name) (generate_response w);
     (* Add bot's response to conversation history *)
     modify (fun self => set_conversation_manager self
       (ConversationManager.add_message (conversation_manager self)
          (character_name (cfg self)) response true)) ;;
     (* Send response *)
     await (ChannelSend (channel message) response) (channel_send w))%bot
    (fun e => logger ERROR ("Failed to respond to message: " +:+ e)).

(** ** [load_character_settings] *)

Definition default_character (name : string) : gmap string Value :=
  <["name" := VStr name]>
  (<["personality" := VStr "Friendly and helpful"]>
  (<["speaking_style" := VStr "Casual and conversational"]>
  (<["language" := VStr "English"]>
  (<["model" := VStr "gpt-4"]> ∅)))).

(** [str(bool(s))] for a [str] *)
Definition bool_str (b : bool) : string := if b then "True" else "False".

Definition two_newlines : string := String PyStr.LF (String PyStr.LF EmptyString).

Section LoadCharacterSettings.
Context `{NotionService}.

Definition load_character_settings (w : World) : M unit :=
  (self ← get;
   let name := notion_character_name (cfg self) in
   logger INFO ("Looking up character settings for Notion character name: " +:+ name) ;;
   try_except
     ((* Get character settings from Notion using the Notion character name *)
      found ← await (GetCharacter name) (get_character w);
      modify (fun self => set_character self found) ;;
      (if character_truthy found then ret tt
       else
         logger WARNING ("Character " +:+ name
                         +:+ " not found in Notion. Using default settings.") ;;
         modify (fun self => set_character self (Some (default_character name)))) ;;
      (* Format character settings into system prompt with base role *)
      self ← get;
      let c := default ∅ (character self) in
      prompt ← lift (format_character_prompt c (base_role (cfg self)));
      modify (fun self => set_system_prompt self (Some prompt)) ;;
      let actual_name := default (VStr name) (c !! "name") in
      logger INFO "Character settings loaded successfully:" ;;
      logger INFO ("- Discord display name: " +:+ character_name (cfg self)) ;;
      logger INFO ("- Notion character name: " +:+ name) ;;
      logger INFO ("- Actual name from Notion: " +:+ PyRepr.str actual_name) ;;
      logger INFO ("- Model: " +:+ PyRepr.str (default (VStr "unknown") (c !! "model"))) ;;
      logger INFO ("- Base role loaded: "
                   +:+ bool_str (PyStr.truthy (base_role (cfg self)))))
     (fun e =>
        logger ERROR ("Failed to load character settings: " +:+ e) ;;
        (* Set default character settings *)
        modify (fun self => set_character self (Some (default_character name))) ;;
        (* Use base role if available, otherwise use a simple default prompt *)
        self ← get;
        if PyStr.truthy (base_role (cfg self))
        then modify (fun self => set_system_prompt self
               (Some ("You are " +:+ name +:+ "." +:+ two_newlines
                      +:+ base_role (cfg self))))
        else modify (fun self => set_system_prompt self
               (Some ("You are " +:+ name +:+ ". Be friendly and helpful.")))))%bot.

End LoadCharacterSettings.

(** ** [generate_introduction_message] *)

(** [self.character and key in self.character] *)
Definition has_field (self : Bot) (key : string) : bool :=
  character_truthy (character self) &&
  match character self with
  | Some c => bool_decide (is_Some (c !! key))
  | None => false
  end.

(** [self.character[key]], read only under [has_field] *)
Definition field (self : Bot) (key : string) : Value :=
  default (VStr EmptyString) (character self ≫= (.!! key)).

(** The flattening of [interests]: a list is joined, anything else is
    used as it is. *)
Definition interests_str (interests : Value) : string :=
  match interests with
  | VList items => PyStr.join "、" items
  | VStr s => s
  end.

Definition greeting (self : Bot) : string :=
  "こんにちは！私は" +:+ character_name (cfg self) +:+ "です。".

Definition invitation : string := "気軽に話しかけてください！".

Section Introduction.
Context `{Hooks}.

Definition intro_parts (self : Bot) : list string :=
  (* Add greeting *)
  [greeting self]
  (* Add personality *)
  ++ (if has_field self "personality"
      then ["性格: " +:+ PyRepr.str (field self "personality")] else [])
  (* Add speaking style *)
  ++ (if has_field self "speaking_style"
      then ["話し方: " +:+ PyRepr.str (field self "speaking_style")] else [])
  (* Add interests *)
  ++ (if has_field self "interests"
      then ["興味・関心: " +:+ interests_str (field self "interests")] else [])
  (* Add background if available *)
  ++ (if has_field self "background"
      then ["背景: " +:+ PyRepr.str (field self "background")] else [])
  (* Add model info *)
  ++ (if has_field self "model"
      then ["使用モデル: " +:+ PyRepr.str (field self "model")] else [])
  (* Additional information of a subclass *)
  ++ (match get_additional_introduction_info self with
      | Some additional_info =>
          if PyStr.truthy additional_info then [additional_info] else []
      | None => []
      end)
  (* Add invitation to chat *)
  ++ [invitation].

Definition generate_introduction_message (self : Bot) : string :=
  PyStr.join (String PyStr.LF EmptyString) (intro_parts self).

End Introduction.

(** ** [on_ready] *)

Section OnReady.
Context `{Hooks} `{NotionService}.

(** [user_name] is what [str(self.user)] gives.  A failing
    [channel.send] is not caught here. *)
Definition on_ready (w : World) (user_name : string) : M unit :=
  (logger INFO ("Bot logged in as " +:+ user_name) ;;
   (* Load character settings from Notion *)
   load_character_settings w ;;
   (* Join the specified channel *)
   self ← get;
   if negb (bool_decide (channel_id (cfg self) = 0)) then
     match get_channel w with
     | Some channel_name =>
         logger INFO ("Joined channel: " +:+ channel_name) ;;
         (* Generate and send introduction message *)
         let intro_message := generate_introduction_message self in
         await (ChannelSend (channel_id (cfg self)) intro_message) (channel_send w) ;;
         logger INFO ("Sent introduction message to channel: " +:+ channel_name)
     | None =>
         logger ERROR ("Could not find channel with ID: "
                       +:+ pretty (channel_id (cfg self)))
     end
   else ret tt)%bot.

End OnReady.

(** ** [send_scheduled_message]

    Nothing is caught here: a failing [channel.send] ends the method with
    its exception, before the last log line. *)

Definition send_scheduled_message (w : World) (message : string) : M unit :=
  (self ← get;
   if bool_decide (channel_id (cfg self) = 0)
   then logger ERROR "No channel ID specified for scheduled message"
   else
     match get_channel w with
     | None =>
         logger ERROR ("Could not find channel with ID: "
                       +:+ pretty (channel_id (cfg self)))
     | Some _ =>
         await (ChannelSend (channel_id (cfg self)) message) (channel_send w) ;;
         logger INFO ("Sent scheduled message: " +:+ message)
     end)%bot.

(** ** [__init__]: configuration from the environment *)

Module PyInt.

(** White space as Python knows it, on the UTF-8 bytes of a text.  The C
    locale's [isspace]: tab to carriage return, and the space. *)
Definition is_space_c (c : ascii) : bool :=
  let n := N_of_ascii c in
  (((9 <=? n) && (n <=? 13)) || (n =? 32))%N.

(** The one-byte white space of [str]: that of C and the four separators
    U+001C to U+001F. *)
Definition is_space (c : ascii) : bool :=
  let n := N_of_ascii c in
  (is_space_c c || ((28 <=? n) && (n <=? 31)))%N.

(** The two-byte white space: U+0085 and U+00A0. *)
Definition is_space2 (c1 c2 : ascii) : bool :=
  let n1 := N_of_ascii c1 in
  let n2 := N_of_ascii c2 in
  ((n1 =? 194) && ((n2 =? 133) || (n2 =? 160)))%N.

(** The three-byte white space: U+1680, U+2000 to U+200A, U+2028, U+2029,
    U+202F, U+205F and U+3000. *)
Definition is_space3 (c1 c2 c3 : ascii) : bool :=
  let n1 := N_of_ascii c1 in
  let n2 := N_of_ascii c2 in
  let n3 := N_of_ascii c3 in
  (((n1 =? 225) && (n2 =? 154) && (n3 =? 128))
   || ((n1 =? 226) && (n2 =? 128)
       && (((128 <=? n3) && (n3 <=? 138)) || (n3 =? 168) || (n3 =? 169) || (n3 =? 175)))
   || ((n1 =? 226) && (n2 =? 129) && (n3 =? 159))
   || ((n1 =? 227) && (n2 =? 128) && (n3 =? 128)))%N.

(** Leading white space removed; [one] says which single bytes count. *)
Fixpoint lstrip_with (one : ascii -> bool) (s : string) : string :=
  match s with
  | EmptyString => EmptyString
  | String c1 r1 =>
      if one c1 then lstrip_with one r1
      else
        match r1 with
        | String c2 r2 =>
            if is_space2 c1 c2 then lstrip_with one r2
            else
              match r2 with
              | String c3 r3 => if is_space3 c1 c2 c3 then lstrip_with one r3 else s
              | EmptyString => s
              end
        | EmptyString => s
        end
  end.

(** The same on the reversed text, where the bytes of a character come
    last byte first. *)
Fixpoint lstrip_reversed (one : ascii -> bool) (s : string) : string :=
  match s with
  | EmptyString => EmptyString
  | String c3 r1 =>
      if one c3 then lstrip_reversed one r1
      else
        match r1 with
        | String c2 r2 =>
            if is_space2 c2 c3 then lstrip_reversed one r2
            else
              match r2 with
              | String c1 r3 => if is_space3 c1 c2 c3 then lstrip_reversed one r3 else s
              | EmptyString => s
              end
        | EmptyString => s
        end
  end.

Fixpoint rev_onto (s acc : string) : string :=
  match s with
  | EmptyString => acc
  | String c r => rev_onto r (String c acc)
  end.

Definition rstrip_with (one : ascii -> bool) (s : string) : string :=
  rev_onto (lstrip_reversed one (rev_onto s EmptyString)) EmptyString.

Definition strip_with (one : ascii -> bool) (s : string) : string :=
  rstrip_with one (lstrip_with one s).

(** [s.strip()] *)
Definition strip (s : string) : string := strip_with is_space s.

Definition digit (c : ascii) : option Z :=
  let n := N_of_ascii c in
  if ((48 <=? n) && (n <=? 57))%N then Some (Z.of_N n - 48) else None.

(** Decimal digits, single underscores allowed between two digits. *)
Fixpoint digits (acc : Z) (after_digit : bool) (s : string) : option Z :=
  match s with
  | EmptyString => if after_digit then Some acc else None
  | String c r =>
      match digit c with
      | Some d => digits (acc * 10 + d) true r
      | None => if Ascii.eqb c "_"%char && after_digit then digits acc false r else None
      end
  end.

(** [int(s)] for a [str] in base 10.  Around the number [int] skips the
    white space of C and that of more than one byte, not U+001C to
    U+001F.  The digits are the ASCII ones: the decimal digits of other
    scripts, which [int] reads as well, raise here. *)
Definition int (s : string) : outcome Z :=
  let body := strip_with is_space_c s in
  let parsed :=
    match body with
    | String "+"%char r => digits 0 false r
    | String "-"%char r => Z.opp <$> digits 0 false r
    | _ => digits 0 false body
    end in
  match parsed with
  | Some n => Ok n
  | None => Raise ("invalid literal for int() with base 10: " +:+ PyRepr.repr_str s)
  end.

End PyInt.

(** [os.environ.get(key, fallback)] *)
Definition environ_get (environ : gmap string string) (key fallback : string) : string :=
  default fallback (environ !! key).

Definition fallback_base_role : string :=
  "あなたはDiscordチャットに参加するAIボットです。会話の流れに自然に応答し、常にキャラクターを維持してください。".

(** [_load_base_role]: [file] is what opening and reading the role file
    gives. *)
Definition _load_base_role (file : outcome string) : string * list Effect :=
  match file with
  | Ok body => (PyInt.strip body, [])
  | Raise e => (fallback_base_role,
                [Log ERROR ("基本ロールスクリプトの読み込みに失敗: " +:+ e)])
  end.

Definition obind {A B} (o : outcome A) (k : A -> outcome B) : outcome B :=
  match o with
  | Ok a => k a
  | Raise e => Raise e
  end.

(** [BaseDiscordBot.__init__], for a base class and services whose
    constructors return: [super().__init__], [LLMService()],
    [NotionService()] and [ConversationManager()] are not part of the
    sources at hand, and what they may raise is not modelled.
    [self_user] stands for [self.user], which the library fills in at
    login. *)
Definition init (environ : gmap string string) (file : outcome string) (self_user : Z)
    (character_name_arg command_prefix_arg : string) : outcome (Bot * list Effect) :=
  obind (PyInt.int (environ_get environ "CHANNEL_ID" "0")) (fun channel_id_v =>
  obind (PyInt.int (environ_get environ "MIN_RESPONSE_DELAY" "5")) (fun min_delay =>
  obind (PyInt.int (environ_get environ "MAX_RESPONSE_DELAY" "15")) (fun max_delay =>
  obind (PyInt.int (environ_get environ "MAX_CONVERSATION_TURNS" "10")) (fun max_turns =>
  let '(role, t) := _load_base_role file in
  Ok ({| cfg := {| user := self_user;
                   command_prefix := command_prefix_arg;
                   notion_character_name := character_name_arg;
                   character_name := character_name_arg;
                   channel_id := channel_id_v;
                   min_response_delay := min_delay;
                   max_response_delay := max_delay;
                   max_conversation_turns := max_turns;
                   base_role := role |};
         conversation_manager := ConversationManager.empty;
         character := None;
         system_prompt := None;
         in_cooldown := false;
         cooldown_until := 0 |}, t))))).

(** ** The bot in its event loop

    One handler runs at a time.  Besides the bot object the loop holds the
    clock and the wake-up times of the sleeping [reset_cooldown_after]
    tasks. *)

Record Loop : Type := {
  bot : Bot;
  clock : Z;
  timers : list Z;
  trace : list Effect
}.

(** A response task may run for any message at any time: that covers
    every task [on_message] created, and more.  Its awaits only separate
    reads of the bot object from one write to the store, so it too is one
    step. *)
Inductive Event : Type :=
| Inbound (message : Message) (w : World)      (* on_message runs *)
| Reply (message : Message) (w : World)        (* a respond_to_message task runs *)
| Elapse (seconds : N).                        (* time passes *)

(** The cooldown resets that a handler created, by their minutes. *)
Fixpoint spawned_resets (t : list Effect) : list Z :=
  match t with
  | [] => []
  | CreateTask (ResetCooldownAfter minutes) :: r => minutes :: spawned_resets r
  | _ :: r => spawned_resets r
  end.

(** A created reset task starts at once: it logs and goes to sleep until
    its wake-up time. *)
Definition start_resets (clock : Z) (self : Bot) (resets : list Z) : list Z * list Effect :=
  (map (fun minutes => clock + minutes * 60) resets,
   List.concat (map (fun minutes => (reset_cooldown_after_start minutes self).2) resets)).

(** Every timer whose time has come wakes its task, which clears the flag. *)
Fixpoint wake (clock : Z) (timers : list Z) (self : Bot) : Bot * list Z * list Effect :=
  match timers with
  | [] => (self, [], [])
  | d :: r =>
      if d <=? clock
      then let '(_, self1, t1) := reset_cooldown_after_wake self in
           let '(self2, r2, t2) := wake clock r self1 in
           (self2, r2, t1 ++ t2)
      else let '(self2, r2, t2) := wake clock r self in
           (self2, d :: r2, t2)
  end.

Section Loop.
Context `{Hooks}.

Definition step (s : Loop) (ev : Event) : Loop :=
  match ev with
  | Inbound message w =>
      let '(self, t) := on_message (clock s) w message (bot s) in
      let '(started, t') := start_resets (clock s) self (spawned_resets t) in
      {| bot := self; clock := clock s;
         timers := timers s ++ started;
         trace := trace s ++ t ++ t' |}
  | Reply message w =>
      let '(_, self, t) := respond_to_message w message (bot s) in
      {| bot := self; clock := clock s; timers := timers s; trace := trace s ++ t |}
  | Elapse seconds =>
      let clock' := clock s + Z.of_N seconds in
      let '(self, timers', t) := wake clock' (timers s) (bot s) in
      {| bot := self; clock := clock'; timers := timers'; trace := trace s ++ t |}
  end.

Definition run (s : Loop) (evs : list Event) : Loop := fold_left step evs s.

(** The loop right after [__init__]: no task yet. *)
Definition boot (self : Bot) (clock0 : Z) : Loop :=
  {| bot := self; clock := clock0; timers := []; trace := [] |}.

End Loop.

(** ** Vocabulary of the statements *)

(** The message is not the bot's own. *)
Definition from_other (self : Bot) (message : Message) : Prop :=
  id (author message) ≠ user (cfg self).

(** The message is in the configured channel, or no channel is configured. *)
Definition in_channel (self : Bot) (message : Message) : Prop :=
  channel_id (cfg self) = 0 ∨ channel message = channel_id (cfg self).

Definition is_command (self : Bot) (message : Message) : bool :=
  PyStr.startswith (content message) (command_prefix (cfg self)).

(** The store after [add_message] for an inbound message. *)
Definition recorded (cm : ConversationManager.t) (message : Message) : ConversationManager.t :=
  ConversationManager.add_message cm (display_name (author message)) (content message) false.

Definition is_respond_task (fx : Effect) : bool :=
  match fx with CreateTask (RespondToMessage _) => true | _ => false end.

Definition is_reset_task (fx : Effect) : bool :=
  match fx with CreateTask (ResetCooldownAfter _) => true | _ => false end.

Definition is_send (fx : Effect) : bool :=
  match fx with ChannelSend _ _ => true | _ => false end.

Definition is_generate (fx : Effect) : bool :=
  match fx with GenerateResponse _ _ => true | _ => false end.

(** [needle] occurs in [hay] up to the case of letters. *)
Definition contains_ignoring_case (needle hay : string) : Prop :=
  ∃ pre mid post, hay = pre +:+ mid +:+ post ∧ PyStr.lower mid = PyStr.lower needle.

(** The display name carries one of the markers of an automated peer. *)
Definition automated_peer (sender_name : string) : Prop :=
  ∃ marker, marker ∈ bot_names ∧ contains_ignoring_case marker sender_name.

(** A blank line is an empty line of the text. *)
Definition no_blank_line (body : string) : Prop := EmptyString ∉ PyStr.lines body.

Definition value_single_line (v : Value) : bool :=
  match v with
  | VStr s => PyStr.single_line s
  | VList items => forallb PyStr.single_line items
  end.

(** The field [key] of the persona, if the persona has it. *)
Definition persona_field (self : Bot) (key : string) : option Value :=
  character self ≫= (.!! key).

(** One line of the introduction, there exactly when the persona has the
    field. *)
Definition optional_line (self : Bot) (label : string) (render : Value → string)
    (key : string) : list string :=
  from_option (fun v => [label +:+ render v]) [] (persona_field self key).

(** The introduction as the design words it (section 4.3,
    [render_introduction]): greeting, the lines of the fields the persona
    has, the extra line of a subclass if it gives a non-empty one, the
    invitation. *)
Definition render_introduction `{Hooks} (self : Bot) : list string :=
  greeting self
  :: (optional_line self "性格: " PyRepr.str "personality"
      ++ optional_line self "話し方: " PyRepr.str "speaking_style"
      ++ optional_line self "興味・関心: " interests_str "interests"
      ++ optional_line self "背景: " PyRepr.str "background"
      ++ optional_line self "使用モデル: " PyRepr.str "model"
      ++ from_option (fun extra => if PyStr.truthy extra then [extra] else []) []
           (get_additional_introduction_info self))
  ++ [invitation].

(** No text that goes into the introduction has a line feed inside. *)
Definition single_line_persona `{Hooks} (self : Bot) : Prop :=
  PyStr.single_line (character_name (cfg self)) = true
  ∧ (∀ c, character self = Some c → map_Forall (fun _ v => value_single_line v = true) c)
  ∧ (∀ extra, get_additional_introduction_info self = Some extra →
       PyStr.single_line extra = true).

(** The loop is cooling down: the flag is set and exactly one reset task
    sleeps, until [wake_at]. *)
Definition cooling (s : Loop) (wake_at : Z) : Prop :=
  in_cooldown (bot s) = true ∧ timers s = [wake_at] ∧ clock s < wake_at.

(** The loop is active: the flag is clear and no reset task sleeps. *)
Definition active (s : Loop) : Prop :=
  in_cooldown (bot s) = false ∧ timers s = [].

(** What the persona lookup found: a non-empty persona, or nothing (the
    lookup raised, or gave [None] or an empty dict). *)
Definition lookup_found (o : outcome (option (gmap string Value)))
  : option (gmap string Value) :=
  match o with
  | Ok found => if character_truthy found then found else None
  | Raise _ => None
  end.

(** Modelled from the spec: [NotionService.format_character_prompt] is
    missing.  Design section 4.3, [build_system_prompt]: the base role text
    concatenated with a rendering of the persona fields; without base role
    text, a one-line instruction that names the persona. *)
Definition render_persona (c : gmap string Value) : string :=
  "name: " +:+ PyRepr.str (default (VStr EmptyString) (c !! "name"))
  +:+ ", personality: " +:+ PyRepr.str (default (VStr EmptyString) (c !! "personality"))
  +:+ ", speaking style: "
  +:+ PyRepr.str (default (VStr EmptyString) (c !! "speaking_style")).

Definition build_system_prompt (c : gmap string Value) (role : string) : outcome string :=
  if PyStr.truthy role
  then Ok (role +:+ two_newlines +:+ render_persona c)
  else Ok ("You are " +:+ PyRepr.str (default (VStr EmptyString) (c !! "name")) +:+ ".").

Definition SpecNotionService : NotionService :=
  {| format_character_prompt := build_system_prompt |}.

(** ** Concrete inputs *)

Definition sample_cfg : Config :=
  {| user := 1; command_prefix := "!"; notion_character_name := "zoo-cat";
     character_name := "Tama"; channel_id := 77; min_response_delay := 5;
     max_response_delay := 15; max_conversation_turns := 2;
     base_role := "You take part in a chat." |}.

Definition sample_bot : Bot :=
  {| cfg := sample_cfg; conversation_manager := ConversationManager.empty;
     character := Some (default_character "zoo-cat");
     system_prompt := Some "You are Tama."; in_cooldown := false; cooldown_until := 0 |}.

Definition alice : Member := {| id := 2; display_name := "Alice" |}.

Definition hello : Message := {| author := alice; channel := 77; content := "hello" |}.
Definition help_command : Message := {| author := alice; channel := 77; content := "!help" |}.

Definition calm_world : World :=
  {| cooldown_draw := 4; typing_draw := 10; delay_response := Ok tt;
     simulate_typing := Ok tt; generate_response := Ok "meow"; channel_send := Ok tt;
     get_character := Ok None; get_channel := Some "zoo" |}.

Definition failing_llm_world : World :=
  {| cooldown_draw := 4; typing_draw := 10; delay_response := Ok tt;
     simulate_typing := Ok tt; generate_response := Raise "backend timeout";
     channel_send := Ok tt; get_character := Ok None; get_channel := Some "zoo" |}.

Definition three_turn_bot : Bot :=
  set_conversation_manager sample_bot
    (recorded (recorded (recorded ConversationManager.empty hello) hello) hello).

(** The same outside, with another state of the random generator. *)
Definition with_cooldown_draw (w : World) (r : Z) : World :=
  {| cooldown_draw := r; typing_draw := typing_draw w; delay_response := delay_response w;
     simulate_typing := simulate_typing w; generate_response := generate_response w;
     channel_send := channel_send w; get_character := get_character w;
     get_channel := get_channel w |}.

Definition one_turn_bot : Bot :=
  set_conversation_manager sample_bot (recorded ConversationManager.empty hello).

Definition cooling_loop : Loop :=
  {| bot := set_in_cooldown sample_bot true; clock := 100; timers := [220]; trace := [] |}.

Definition busy_minute : list Event :=
  [Inbound hello calm_world; Elapse 60; Inbound hello calm_world; Reply hello calm_world].

(** The bot before its persona is loaded. *)
Definition fresh_bot : Bot :=
  {| cfg := sample_cfg; conversation_manager := ConversationManager.empty;
     character := None; system_prompt := None; in_cooldown := false; cooldown_until := 0 |}.

(** A persona with every optional field, the interests as a list. *)
Definition full_character : gmap string Value :=
  <["interests" := VList ["fish"; "naps"]]>
  (<["background" := VStr "Born in the zoo."]> (default_character "zoo-cat")).

Definition full_bot : Bot := set_character sample_bot (Some full_character).

Definition ExtraHooks : Hooks :=
  {| should_respond_to_message := fun _ _ => false;
     get_additional_introduction_info := fun _ => Some "I answer in haiku." |}.

(** The bot that [__init__] builds when the environment sets nothing and
    the role file cannot be read. *)
Definition booted_bot : Bot :=
  {| cfg := {| user := 1; command_prefix := "!"; notion_character_name := "Tama";
               character_name := "Tama"; channel_id := 0; min_response_delay := 5;
               max_response_delay := 15; max_conversation_turns := 10;
               base_role := fallback_base_role |};
     conversation_manager := ConversationManager.empty;
     character := None; system_prompt := None; in_cooldown := false; cooldown_until := 0 |}.

Definition elsewhere : Message := {| author := alice; channel := 4242; content := "hi" |}.

(** ** Further vocabulary *)

Definition is_task (fx : Effect) : bool :=
  match fx with CreateTask _ => true | _ => false end.

Definition is_lookup (fx : Effect) : bool :=
  match fx with GetCharacter _ => true | _ => false end.

Definition is_log_at (level : LogLevel) (fx : Effect) : bool :=
  match fx, level with
  | Log INFO _, INFO | Log WARNING _, WARNING | Log ERROR _, ERROR => true
  | _, _ => false
  end.

(** The loop is cooling down within the limit the handler sets: the one
    timer is due no later than three minutes from now. *)
Definition cooling_within (s : Loop) (wake_at : Z) : Prop :=
  cooling s wake_at ∧ wake_at ≤ clock s + 180.

(** The system prompt that the failure path of [load_character_settings]
    composes by itself. *)
Definition fallback_prompt (name role : string) : string :=
  if PyStr.truthy role
  then "You are " +:+ name +:+ "." +:+ two_newlines +:+ role
  else "You are " +:+ name +:+ ". Be friendly and helpful.".

Definition send_failing_world : World :=
  {| cooldown_draw := 4; typing_draw := 10; delay_response := Ok tt;
     simulate_typing := Ok tt; generate_response := Ok "meow";
     channel_send := Raise "Forbidden"; get_character := Ok None;
     get_channel := Some "zoo" |}.

Definition found_world : World :=
  {| cooldown_draw := 4; typing_draw := 10; delay_response := Ok tt;
     simulate_typing := Ok tt; generate_response := Ok "meow"; channel_send := Ok tt;
     get_character := Ok (Some full_character); get_channel := Some "zoo" |}.

Definition lost_channel_world : World :=
  {| cooldown_draw := 4; typing_draw := 10; delay_response := Ok tt;
     simulate_typing := Ok tt; generate_response := Ok "meow"; channel_send := Ok tt;
     get_character := Raise "notion is down"; get_channel := None |}.

Definition claude_peer : Member := {| id := 3; display_name := "Claude-Animal-42" |}.

Definition peer_hello : Message :=
  {| author := claude_peer; channel := 77; content := "hello" |}.

Definition own_message : Message :=
  {| author := {| id := 1; display_name := "Tama" |}; channel := 77; content := "meow" |}.

(** A persona whose background has two paragraphs. *)
Definition two_paragraphs : string :=
  "Born in the zoo." +:+ two_newlines +:+ "Raised by the keepers.".

Definition paragraph_bot : Bot :=
  set_character sample_bot
    (Some (<["background" := VStr two_paragraphs]> (default_character "zoo-cat"))).

(** * Properties *)

(** ** Sanity checks of the Python helpers *)

Example lower_example : PyStr.lower "Claude-Animal-42" = "claude-animal-42".
Proof. reflexivity. Qed.

Example repr_example :
  PyRepr.str (VList ["cats"; "it's"]) = String.concat ""
    ["['cats', "; String (ascii_of_N 34) "it's"; String (ascii_of_N 34) "]"].
Proof. reflexivity. Qed.

Example strip_examples :
  PyInt.strip "  a b  " = "a b"
  /\ PyInt.strip "　猫　" = "猫"
  /\ PyInt.strip (String (ascii_of_N 31) "a b") = "a b"
  /\ PyInt.strip "　 　" = EmptyString
  /\ PyInt.strip "a　b" = "a　b".
Proof. repeat split; reflexivity. Qed.

Example int_space_examples :
  PyInt.int "　7　" = Ok 7
  /\ PyInt.int (String (ascii_of_N 31) "5")
     = Raise ("invalid literal for int() with base 10: '\x1f5'").
Proof. repeat split; reflexivity. Qed.

Example int_examples :
  PyInt.int "0" = Ok 0 /\ PyInt.int " -1_000 " = Ok (-1000) /\
  PyInt.int "1234567890123" = Ok 1234567890123 /\
  PyInt.int "" = Raise "invalid literal for int() with base 10: ''" /\
  PyInt.int "1__0" = Raise "invalid literal for int() with base 10: '1__0'".
Proof. repeat split; reflexivity. Qed.

(** ** The inbound-message handler *)

Section OnMessageFacts.
Context `{Hooks}.

Lemma channel_filter_open self message :
  in_channel self message →
  negb (bool_decide (channel_id (cfg self) = 0))
  && negb (bool_decide (channel message = channel_id (cfg self))) = false.
Proof.
  intros [Hz | Hc].
  - rewrite (bool_decide_eq_true_2 _ Hz). reflexivity.
  - rewrite (bool_decide_eq_true_2 _ Hc). apply andb_false_r.
Qed.

Lemma channel_filter_closed self message :
  ¬ in_channel self message →
  negb (bool_decide (channel_id (cfg self) = 0))
  && negb (bool_decide (channel message = channel_id (cfg self))) = true.
Proof.
  intros Hn. unfold in_channel in Hn.
  rewrite !bool_decide_eq_false_2; [reflexivity | tauto | tauto].
Qed.

(** What the handler does with a message that passes the two filters. *)
Lemma on_message_filtered now w message self :
  from_other self message → in_channel self message →
  on_message now w message self =
    if is_command self message then (self, [ProcessCommands message])
    else if in_cooldown self then (self, [ProcessCommands message])
    else
      let cm := recorded (conversation_manager self) message in
      if ConversationManager.should_cool_down cm (max_conversation_turns (cfg self))
      then
        let minutes := randint 1 3 (cooldown_draw w) in
        (set_cooldown_until
           (set_conversation_manager
              (set_in_cooldown (set_conversation_manager self cm) true)
              (ConversationManager.reset_conversation_turns cm))
           (now + minutes * 60),
         [ProcessCommands message;
          Log INFO ("Cooling down after " +:+ pretty (max_conversation_turns (cfg self))
                    +:+ " conversation turns");
          CreateTask (ResetCooldownAfter minutes)])
      else if should_respond_to_message (set_conversation_manager self cm) message
      then (set_conversation_manager self cm,
            [ProcessCommands message; CreateTask (RespondToMessage message)])
      else (set_conversation_manager self cm, [ProcessCommands message]).
Proof.
  intros Hother Hchan. unfold on_message, is_command, recorded.
  rewrite (bool_decide_eq_false_2 _ Hother), (channel_filter_open _ _ Hchan).
  simpl. repeat case_match; simpl in *; congruence.
Qed.

(** A message that fails a filter leaves no mark at all. *)
Lemma on_message_ignored now w message self :
  ¬ (from_other self message ∧ in_channel self message) →
  on_message now w message self = (self, []).
Proof.
  intros Hn. unfold on_message.
  destruct (bool_decide (id (author message) = user (cfg self))) eqn:E; [reflexivity |].
  apply bool_decide_eq_false in E.
  rewrite channel_filter_closed; [reflexivity |]. unfold from_other in Hn. tauto.
Qed.

(** The handler never touches the configuration. *)
Lemma on_message_cfg now w message self :
  cfg (on_message now w message self).1 = cfg self.
Proof. unfold on_message. repeat case_match; reflexivity. Qed.

(** The handler never clears the cooldown flag. *)
Lemma on_message_keeps_cooldown now w message self :
  in_cooldown self = true →
  in_cooldown (on_message now w message self).1 = true
  ∧ spawned_resets (on_message now w message self).2 = [].
Proof.
  intros Hc. unfold on_message. rewrite Hc. repeat case_match; split; done.
Qed.

(** The handler creates at most one reset task, and exactly when it sets
    the flag. *)
Lemma on_message_enters now w message self :
  in_cooldown self = false →
  (in_cooldown (on_message now w message self).1 = false
   ∧ spawned_resets (on_message now w message self).2 = [])
  ∨ (in_cooldown (on_message now w message self).1 = true
     ∧ spawned_resets (on_message now w message self).2
       = [randint 1 3 (cooldown_draw w)]).
Proof.
  intros Hc. unfold on_message. rewrite Hc.
  repeat case_match; simpl; rewrite ?Hc; auto.
Qed.

End OnMessageFacts.

(** [random.randint(a, b)] stays in the inclusive range, and every value
    of the range is drawn by some state of the generator. *)
Lemma randint_range a b r : a ≤ b → a ≤ randint a b r ≤ b.
Proof.
  intros Hab. unfold randint.
  pose proof (Z.mod_pos_bound r (b - a + 1) ltac:(lia)). lia.
Qed.

Lemma randint_onto a b d : a ≤ d ≤ b → randint a b (d - a) = d.
Proof.
  intros Hd. unfold randint. rewrite Z.mod_small by lia. lia.
Qed.

(** *** Messages that arrive during a cooldown *)

(** C1, as the source has it.  While [in_cooldown] is set, an inbound
    message that is not the bot's own, is in the channel and is no command
    creates no task at all, whatever the eligibility hook says, and leaves
    the bot object as it was: the handler returns before [add_message], so
    the message is not recorded in the store. *)
Theorem on_message_while_cooling_down `{Hooks} now w message self :
  in_cooldown self = true →
  from_other self message → in_channel self message → is_command self message = false →
  on_message now w message self = (self, [ProcessCommands message])
  ∧ filter is_respond_task (on_message now w message self).2 = []
  ∧ conversation_manager (on_message now w message self).1 = conversation_manager self.
Proof.
  intros Hcool Hother Hchan Hcmd.
  rewrite (on_message_filtered _ _ _ _ Hother Hchan), Hcmd, Hcool. done.
Qed.

Lemma on_message_while_cooling_down_witness :
  @on_message BaseHooks 100 calm_world hello (set_in_cooldown sample_bot true)
  = (set_in_cooldown sample_bot true, [ProcessCommands hello]).
Proof.
  apply (@on_message_while_cooling_down BaseHooks 100 calm_world hello
           (set_in_cooldown sample_bot true)).
  - reflexivity.
  - unfold from_other. simpl. lia.
  - right. reflexivity.
  - reflexivity.
Defined.

(** C1 as worded fails: here the bot is cooling down, the message passes
    every filter, and the store is not the store with the message added;
    it is still empty. *)
Lemma cooldown_message_is_not_recorded :
  let self := set_in_cooldown sample_bot true in
  let self' := (@on_message BaseHooks 100 calm_world hello self).1 in
  in_cooldown self = true
  ∧ from_other self hello ∧ in_channel self hello ∧ is_command self hello = false
  ∧ conversation_manager self' ≠ recorded (conversation_manager self) hello
  ∧ ConversationManager.history (conversation_manager self') = [].
Proof.
  simpl. repeat split.
  - unfold from_other. simpl. lia.
  - right. reflexivity.
  - discriminate.
Qed.

(** *** Commands *)

(** C5, as the source has it.  A message whose content starts with the
    command prefix creates no task and leaves the bot object as it was:
    the handler returns before [add_message], so the command is not
    appended to the store.  All it can trigger is command processing. *)
Theorem on_message_command `{Hooks} now w message self :
  is_command self message = true →
  (on_message now w message self = (self, [])
   ∨ on_message now w message self = (self, [ProcessCommands message]))
  ∧ filter is_respond_task (on_message now w message self).2 = []
  ∧ conversation_manager (on_message now w message self).1 = conversation_manager self.
Proof.
  intros Hcmd. unfold is_command in Hcmd. unfold on_message. rewrite Hcmd.
  repeat case_match; simpl; auto.
Qed.

Lemma on_message_command_witness :
  conversation_manager (@on_message BaseHooks 100 calm_world help_command sample_bot).1
  = conversation_manager sample_bot.
Proof.
  apply (@on_message_command BaseHooks 100 calm_world help_command sample_bot).
  reflexivity.
Defined.

(** C5 as worded fails: the command passes the author and channel
    filters, yet the store is not the store with the message appended; it
    is still empty. *)
Lemma command_is_not_recorded :
  let self' := (@on_message BaseHooks 100 calm_world help_command sample_bot).1 in
  is_command sample_bot help_command = true
  ∧ from_other sample_bot help_command ∧ in_channel sample_bot help_command
  ∧ conversation_manager self' ≠ recorded (conversation_manager sample_bot) help_command
  ∧ ConversationManager.history (conversation_manager self') = [].
Proof.
  simpl. repeat split.
  - unfold from_other. simpl. lia.
  - right. reflexivity.
  - discriminate.
Qed.

(** ** The response task *)

Ltac run_m :=
  unfold try_except, bind, await, lift, get, modify, logger, emit, ret;
  simpl; repeat case_match; simplify_eq/=.

(** The task touches nothing but the store. *)
Lemma respond_to_message_frame w message self :
  let self' := (respond_to_message w message self).1.2 in
  cfg self' = cfg self ∧ in_cooldown self' = in_cooldown self
  ∧ cooldown_until self' = cooldown_until self
  ∧ character self' = character self ∧ system_prompt self' = system_prompt self.
Proof. unfold respond_to_message. run_m; done. Qed.

(** Whatever the collaborators do, the task ends without an exception. *)
Lemma respond_to_message_never_raises w message self :
  (respond_to_message w message self).1.1 = Ok tt.
Proof.
  unfold respond_to_message. run_m; try done;
    match goal with |- Ok ?u = Ok tt => by destruct u end.
Qed.

(** C3.  When the LLM backend call raises, the response task ends without
    an exception, leaves the bot object (the conversation store with it)
    exactly as it was, sends nothing to the channel, has called the
    backend at most once, and its last act is the error log; when the
    backend was reached, that log carries the backend's exception. *)
Theorem respond_to_message_llm_failure w message self e :
  generate_response w = Raise e →
  let res := respond_to_message w message self in
  res.1.1 = Ok tt
  ∧ res.1.2 = self
  ∧ List.length (ConversationManager.history (conversation_manager res.1.2))
    = List.length (ConversationManager.history (conversation_manager self))
  ∧ filter is_send res.2 = []
  ∧ (List.length (filter is_generate res.2) ≤ 1)%nat
  ∧ (∃ e', last res.2 = Some (Log ERROR ("Failed to respond to message: " +:+ e')))
  ∧ (filter is_generate res.2 ≠ [] →
     last res.2 = Some (Log ERROR ("Failed to respond to message: " +:+ e))).
Proof.
  intros Hllm. unfold respond_to_message. rewrite Hllm.
  run_m; repeat split; simpl; eauto; try lia; try done.
Qed.

Lemma respond_to_message_llm_failure_witness :
  let res := respond_to_message failing_llm_world hello three_turn_bot in
  res.1.1 = Ok tt
  ∧ res.1.2 = three_turn_bot
  ∧ List.length (ConversationManager.history (conversation_manager res.1.2)) = 3%nat
  ∧ filter is_send res.2 = []
  ∧ (List.length (filter is_generate res.2) ≤ 1)%nat
  ∧ (∃ e', last res.2 = Some (Log ERROR ("Failed to respond to message: " +:+ e')))
  ∧ (filter is_generate res.2 ≠ [] →
     last res.2 = Some (Log ERROR "Failed to respond to message: backend timeout")).
Proof.
  apply (respond_to_message_llm_failure failing_llm_world hello three_turn_bot
           "backend timeout").
  reflexivity.
Defined.

(** ** The cooldown in the event loop *)

Lemma wake_nil clock self : wake clock [] self = (self, [], []).
Proof. reflexivity. Qed.

Lemma wake_due clock d self :
  d ≤ clock → wake clock [d] self = (set_in_cooldown self false, [], [Log INFO "Cooldown ended"]).
Proof. intros Hd. simpl. rewrite (proj2 (Z.leb_le d clock) Hd). reflexivity. Qed.

Lemma wake_early clock d self : clock < d → wake clock [d] self = (self, [d], []).
Proof. intros Hd. simpl. rewrite (proj2 (Z.leb_gt d clock) Hd). reflexivity. Qed.

Section LoopFacts.
Context `{Hooks}.

Lemma step_inbound s message w :
  let r := on_message (clock s) w message (bot s) in
  bot (step s (Inbound message w)) = r.1
  ∧ clock (step s (Inbound message w)) = clock s
  ∧ timers (step s (Inbound message w))
    = timers s ++ map (fun minutes => clock s + minutes * 60) (spawned_resets r.2).
Proof. simpl. destruct (on_message _ _ _ _). done. Qed.

Lemma step_reply s message w :
  bot (step s (Reply message w)) = (respond_to_message w message (bot s)).1.2
  ∧ clock (step s (Reply message w)) = clock s
  ∧ timers (step s (Reply message w)) = timers s.
Proof. simpl. destruct (respond_to_message _ _ _) as [[? ?] ?]. done. Qed.

Lemma step_elapse s seconds :
  let r := wake (clock s + Z.of_N seconds) (timers s) (bot s) in
  bot (step s (Elapse seconds)) = r.1.1
  ∧ clock (step s (Elapse seconds)) = clock s + Z.of_N seconds
  ∧ timers (step s (Elapse seconds)) = r.1.2.
Proof. simpl. destruct (wake _ _ _) as [[? ?] ?]. done. Qed.

(** Time never runs backwards. *)
Lemma step_clock s ev : clock s ≤ clock (step s ev).
Proof.
  destruct ev as [m w | m w | n].
  - destruct (step_inbound s m w) as (_ & -> & _). lia.
  - destruct (step_reply s m w) as (_ & -> & _). lia.
  - destruct (step_elapse s n) as (_ & -> & _). lia.
Qed.

Lemma run_clock evs : ∀ s, clock s ≤ clock (run s evs).
Proof.
  induction evs as [| ev evs IH]; intros s; [simpl; lia |].
  change (run s (ev :: evs)) with (run (step s ev) evs).
  pose proof (step_clock s ev). pose proof (IH (step s ev)). lia.
Qed.

(** While the loop is cooling down, neither an inbound message nor a
    finishing response task touches the flag or the sleeping timer; only
    the passing of time up to the wake-up time ends the cooldown. *)
Lemma step_cooling s d ev :
  cooling s d →
  (clock (step s ev) < d ∧ cooling (step s ev) d)
  ∨ (d ≤ clock (step s ev) ∧ active (step s ev)
     ∧ ∃ seconds, ev = Elapse seconds).
Proof.
  intros (Hflag & Htimers & Hclock). unfold cooling, active.
  destruct ev as [m w | m w | n].
  - left. destruct (step_inbound s m w) as (-> & -> & ->).
    destruct (on_message_keeps_cooldown (clock s) w m (bot s) Hflag) as [-> ->].
    simpl. rewrite app_nil_r. done.
  - left. destruct (step_reply s m w) as (-> & -> & ->).
    destruct (respond_to_message_frame w m (bot s)) as (_ & -> & _). done.
  - destruct (step_elapse s n) as (-> & -> & ->). rewrite Htimers.
    destruct (Z_lt_le_dec (clock s + Z.of_N n) d) as [Hlt | Hge].
    + left. rewrite (wake_early _ _ _ Hlt). done.
    + right. rewrite (wake_due _ _ _ Hge). eauto.
Qed.

(** An active loop stays active or enters a cooldown with one timer. *)
Lemma step_active s ev :
  active s → active (step s ev) ∨ ∃ d, cooling (step s ev) d.
Proof.
  intros (Hflag & Htimers). unfold cooling, active.
  destruct ev as [m w | m w | n].
  - destruct (step_inbound s m w) as (-> & -> & ->). rewrite Htimers.
    destruct (on_message_enters (clock s) w m (bot s) Hflag) as [[-> ->] | [-> ->]].
    + left. done.
    + right. eexists. simpl. repeat split.
      pose proof (randint_range 1 3 (cooldown_draw w) ltac:(lia)). lia.
  - left. destruct (step_reply s m w) as (-> & _ & ->).
    destruct (respond_to_message_frame w m (bot s)) as (_ & -> & _). done.
  - left. destruct (step_elapse s n) as (-> & _ & ->). rewrite Htimers, wake_nil. done.
Qed.

Lemma run_settled evs : ∀ s,
  active s ∨ (∃ d, cooling s d) →
  active (run s evs) ∨ (∃ d, cooling (run s evs) d).
Proof.
  induction evs as [| ev evs IH]; intros s Hs; [exact Hs |].
  change (run s (ev :: evs)) with (run (step s ev) evs).
  apply IH. destruct Hs as [Ha | [d Hc]].
  - apply step_active, Ha.
  - destruct (step_cooling s d ev Hc) as [[_ Hc'] | (_ & Ha & _)]; eauto.
Qed.

Lemma run_cooling evs : ∀ s d,
  cooling s d → clock (run s evs) < d → cooling (run s evs) d.
Proof.
  induction evs as [| ev evs IH]; intros s d Hc Hlt; [exact Hc |].
  pose proof (run_clock evs (step s ev)) as Hmono.
  change (run s (ev :: evs)) with (run (step s ev) evs) in *.
  destruct (step_cooling s d ev Hc) as [[_ Hc'] | (Hge & _)]; [| lia].
  apply IH; assumption.
Qed.

End LoopFacts.

(** *** Entering the cooldown *)

Lemma spawned_resets_filter t :
  map (fun minutes => CreateTask (ResetCooldownAfter minutes)) (spawned_resets t)
  = filter is_reset_task t.
Proof.
  induction t as [| fx t IH]; [reflexivity |].
  destruct fx as [| | [|] | | | | | |]; rewrite filter_cons; simpl; rewrite <- ?IH; reflexivity.
Qed.

(** C2.  An inbound message that passes the filters while the bot is not
    cooling down, and after whose recording the store says
    [should_cool_down]: the flag is set, the turn counter is zero (the
    history keeps the message), exactly one reset task is created, its
    minutes come from [random.randint(1, 3)] and so lie between 1 and 3,
    each of 1, 2, 3 being possible, no response task is created, and in
    the loop exactly one timer is added, due that many minutes later. *)
Theorem on_message_enters_cooldown `{Hooks} now w message self :
  from_other self message → in_channel self message → is_command self message = false →
  in_cooldown self = false →
  ConversationManager.should_cool_down (recorded (conversation_manager self) message)
    (max_conversation_turns (cfg self)) = true →
  let self' := (on_message now w message self).1 in
  let t := (on_message now w message self).2 in
  ∃ minutes,
    minutes = randint 1 3 (cooldown_draw w)
    ∧ 1 ≤ minutes ≤ 3
    ∧ in_cooldown self' = true
    ∧ ConversationManager.turns (conversation_manager self') = 0
    ∧ ConversationManager.history (conversation_manager self')
      = ConversationManager.history (recorded (conversation_manager self) message)
    ∧ cooldown_until self' = now + minutes * 60
    ∧ filter is_reset_task t = [CreateTask (ResetCooldownAfter minutes)]
    ∧ filter is_respond_task t = []
    ∧ (∀ s, bot s = self →
         in_cooldown (bot (step s (Inbound message w))) = true
         ∧ timers (step s (Inbound message w)) = timers s ++ [clock s + minutes * 60])
    ∧ (∀ d, 1 ≤ d ≤ 3 →
         filter is_reset_task (on_message now (with_cooldown_draw w (d - 1)) message self).2
         = [CreateTask (ResetCooldownAfter d)]).
Proof.
  intros Hother Hchan Hcmd Hflag Hcool. simpl.
  exists (randint 1 3 (cooldown_draw w)).
  pose proof (randint_range 1 3 (cooldown_draw w) ltac:(lia)) as Hr.
  rewrite !(on_message_filtered _ _ _ _ Hother Hchan), Hcmd, Hflag. simpl. rewrite Hcool.
  simpl. repeat split; try lia.
  - subst self. rewrite (on_message_filtered _ _ _ _ Hother Hchan), Hcmd, Hflag. simpl.
    rewrite Hcool. reflexivity.
  - subst self. rewrite (on_message_filtered _ _ _ _ Hother Hchan), Hcmd, Hflag. simpl.
    rewrite Hcool. reflexivity.
  - intros d Hd.
    rewrite (on_message_filtered _ _ _ _ Hother Hchan), Hcmd, Hflag. cbv zeta.
    rewrite Hcool. change (cooldown_draw (with_cooldown_draw w (d - 1))) with (d - 1).
    rewrite (randint_onto 1 3 d) by lia. reflexivity.
Qed.

Lemma on_message_enters_cooldown_witness :
  ∃ minutes,
    minutes = randint 1 3 4
    ∧ 1 ≤ minutes ≤ 3
    ∧ in_cooldown (@on_message BaseHooks 100 calm_world hello one_turn_bot).1 = true.
Proof.
  destruct (@on_message_enters_cooldown BaseHooks 100 calm_world hello one_turn_bot)
    as (minutes & Hm & Hr & Hflag & _).
  - unfold from_other. simpl. lia.
  - right. reflexivity.
  - reflexivity.
  - reflexivity.
  - reflexivity.
  - exists minutes. exact (conj Hm (conj Hr Hflag)).
Defined.

(** *** Leaving the cooldown *)

(** C4.  From a loop that is cooling down with its reset task asleep until
    [d], after any run of inbound messages, finishing response tasks and
    passing time: as long as the clock has not reached [d] the flag is
    still set and the one timer is still due at [d] (no message cancels,
    resets or extends it, and another message changes nothing); the step
    in which the clock reaches [d] clears the flag and retires the timer,
    whatever arrived in between; and once the clock has reached [d] that
    timer is gone. *)
Theorem cooldown_ends_when_timer_elapses `{Hooks} s d evs :
  cooling s d →
  let s' := run s evs in
  (clock s' < d → cooling s' d)
  ∧ (clock s' < d → ∀ message w,
       cooling (step s' (Inbound message w)) d
       ∧ clock (step s' (Inbound message w)) = clock s')
  ∧ (clock s' < d → ∀ seconds,
       d ≤ clock s' + Z.of_N seconds → active (step s' (Elapse seconds)))
  ∧ (clock s' < d → ∀ seconds,
       clock s' + Z.of_N seconds < d → cooling (step s' (Elapse seconds)) d)
  ∧ (d ≤ clock s' → d ∉ timers s').
Proof.
  intros Hc s'. subst s'.
  assert (clock (run s evs) < d → cooling (run s evs) d) as Hkeep
    by (apply run_cooling, Hc).
  split; [exact Hkeep |]. split; [| split; [| split]].
  - intros Hlt message w. specialize (Hkeep Hlt).
    destruct (step_cooling _ d (Inbound message w) Hkeep) as [[_ Hc'] | (_ & _ & [n Hn])];
      [| discriminate].
    split; [exact Hc' |]. apply step_inbound.
  - intros Hlt seconds Hge. specialize (Hkeep Hlt).
    destruct (step_cooling _ d (Elapse seconds) Hkeep) as [[Hlt' _] | (_ & Ha & _)];
      [| exact Ha].
    destruct (step_elapse (run s evs) seconds) as (_ & Hclk & _). lia.
  - intros Hlt seconds Hlt'. specialize (Hkeep Hlt).
    destruct (step_cooling _ d (Elapse seconds) Hkeep) as [[_ Hc'] | (Hge & _)];
      [exact Hc' |].
    destruct (step_elapse (run s evs) seconds) as (_ & Hclk & _). lia.
  - intros Hge Hin.
    destruct (run_settled evs s (or_intror (ex_intro _ d Hc)))
      as [[_ Ht] | (d' & _ & Ht & Hlt)]; rewrite Ht in Hin.
    + by apply elem_of_nil in Hin.
    + apply list_elem_of_singleton in Hin. lia.
Qed.

Lemma cooldown_ends_when_timer_elapses_witness :
  cooling cooling_loop 220
  ∧ cooling (@run BaseHooks cooling_loop busy_minute) 220
  ∧ active (@step BaseHooks (@run BaseHooks cooling_loop busy_minute) (Elapse 60)).
Proof.
  assert (cooling cooling_loop 220) as Hc by (repeat split; reflexivity).
  destruct (@cooldown_ends_when_timer_elapses BaseHooks cooling_loop 220 busy_minute Hc)
    as (Hkeep & _ & Hfire & _).
  split; [exact Hc |]. split.
  - apply Hkeep. reflexivity.
  - apply Hfire; [reflexivity | vm_compute; discriminate].
Defined.

(** C8.  From a bot that is not cooling down and a loop without tasks,
    after any run of events: at most one reset timer is asleep; one is
    asleep exactly when [in_cooldown] is set; and while one is asleep, no
    inbound message creates a reset task or adds a timer. *)
Theorem at_most_one_cooldown_timer `{Hooks} self clock0 evs :
  in_cooldown self = false →
  let s := run (boot self clock0) evs in
  (List.length (timers s) ≤ 1)%nat
  ∧ (in_cooldown (bot s) = true ↔ timers s ≠ [])
  ∧ (timers s ≠ [] → ∀ message w,
       filter is_reset_task (on_message (clock s) w message (bot s)).2 = []
       ∧ timers (step s (Inbound message w)) = timers s).
Proof.
  intros Hflag s.
  assert (active (boot self clock0)) as Hboot by (split; [exact Hflag | reflexivity]).
  destruct (run_settled evs _ (or_introl Hboot)) as [[Hf Ht] | (d & Hf & Ht & Hlt)];
    fold s in Hf, Ht; rewrite Ht.
  - split; [simpl; lia |]. split; [| done]. rewrite Hf. split; done.
  - split; [simpl; lia |]. split; [rewrite Hf; split; done |].
    intros _ message w.
    destruct (on_message_keeps_cooldown (clock s) w message (bot s) Hf) as [_ Hnone].
    split.
    + rewrite <- spawned_resets_filter, Hnone. reflexivity.
    + destruct (step_inbound s message w) as (_ & _ & ->).
      rewrite Hnone, Ht. reflexivity.
Qed.

Lemma at_most_one_cooldown_timer_witness :
  let s := @run BaseHooks (boot one_turn_bot 100)
             [Inbound hello calm_world; Inbound hello calm_world; Elapse 30] in
  (List.length (timers s) ≤ 1)%nat
  ∧ (in_cooldown (bot s) = true ↔ timers s ≠ []).
Proof.
  destruct (@at_most_one_cooldown_timer BaseHooks one_turn_bot 100
              [Inbound hello calm_world; Inbound hello calm_world; Elapse 30])
    as (Hlen & Hiff & _).
  - reflexivity.
  - exact (conj Hlen Hiff).
Defined.

(** ** The sender-dependent system prompt *)

Lemma append_cons c a b : String c a +:+ b = String c (a +:+ b).
Proof. reflexivity. Qed.

Lemma append_nil_l a : EmptyString +:+ a = a.
Proof. reflexivity. Qed.

Lemma append_assoc a b c : (a +:+ b) +:+ c = a +:+ b +:+ c.
Proof. induction a as [| x a IH]; [reflexivity |]. rewrite !append_cons, IH. reflexivity. Qed.

Lemma append_nil_r a : a +:+ EmptyString = a.
Proof. induction a as [| x a IH]; [reflexivity |]. rewrite append_cons, IH. reflexivity. Qed.

Lemma append_fixpoint a b : a +:+ b = a → b = EmptyString.
Proof.
  induction a as [| x a IH]; [intros E; exact E |].
  rewrite append_cons. intros E. injection E as E. exact (IH E).
Qed.

Lemma prefix_iff p s : String.prefix p s = true ↔ ∃ r, s = p +:+ r.
Proof.
  revert s. induction p as [| c p IH]; intros s.
  - split; [exists s; reflexivity | destruct s; reflexivity].
  - destruct s as [| c' s]; simpl.
    + split; [discriminate | intros [r Hr]; discriminate].
    + destruct (ascii_dec c c') as [-> | Hne].
      * rewrite IH. split; intros [r Hr]; exists r.
        -- rewrite append_cons, <- Hr. reflexivity.
        -- rewrite append_cons in Hr. injection Hr as Hr. exact Hr.
      * split; [discriminate |]. intros [r Hr]. rewrite append_cons in Hr. congruence.
Qed.

(** [in] on strings finds exactly the substrings. *)
Lemma contains_iff needle hay :
  PyStr.contains needle hay = true ↔ ∃ pre post, hay = pre +:+ needle +:+ post.
Proof.
  induction hay as [| c hay IH].
  - cbn [PyStr.contains]. rewrite orb_false_r, prefix_iff. split.
    + intros [r Hr]. exists EmptyString, r. exact Hr.
    + intros (pre & post & E). destruct pre; [exists post; exact E | discriminate].
  - cbn [PyStr.contains]. rewrite orb_true_iff, prefix_iff, IH. split.
    + intros [[r Hr] | (pre & post & E)].
      * exists EmptyString, r. exact Hr.
      * exists (String c pre), post. rewrite append_cons, E. reflexivity.
    + intros (pre & post & E). destruct pre as [| c' pre].
      * left. exists post. exact E.
      * right. rewrite append_cons in E. injection E as _ E. eauto.
Qed.

Lemma lower_app a b : PyStr.lower (a +:+ b) = PyStr.lower a +:+ PyStr.lower b.
Proof.
  induction a as [| c a IH]; [reflexivity |].
  rewrite append_cons. simpl. rewrite IH, append_cons. reflexivity.
Qed.

Lemma lower_split s : ∀ x y,
  PyStr.lower s = x +:+ y → ∃ a b, s = a +:+ b ∧ PyStr.lower a = x ∧ PyStr.lower b = y.
Proof.
  induction s as [| c s IH]; intros x y E.
  - destruct x; [| discriminate]. exists EmptyString, EmptyString.
    rewrite append_nil_l in E. auto.
  - destruct x as [| c' x].
    + exists EmptyString, (String c s). auto.
    + simpl in E. rewrite append_cons in E. injection E as Ec E.
      destruct (IH x y E) as (a & b & -> & Ha & Hb).
      exists (String c a), b. simpl. rewrite Ha, Ec. auto.
Qed.

Lemma lower_contains_iff marker sender :
  PyStr.contains (PyStr.lower marker) (PyStr.lower sender) = true
  ↔ contains_ignoring_case marker sender.
Proof.
  rewrite contains_iff. unfold contains_ignoring_case. split.
  - intros (pre & post & E).
    destruct (lower_split _ _ _ E) as (a & rest & -> & _ & Hrest).
    destruct (lower_split _ _ _ Hrest) as (mid & b & -> & Hmid & _).
    exists a, mid, b. auto.
  - intros (pre & mid & post & -> & Hmid).
    exists (PyStr.lower pre), (PyStr.lower post).
    rewrite !lower_app, Hmid. reflexivity.
Qed.

(** The [any(...)] of the source decides [automated_peer]. *)
Lemma sender_is_bot_iff sender : sender_is_bot sender = true ↔ automated_peer sender.
Proof.
  unfold sender_is_bot, automated_peer. rewrite existsb_exists. split.
  - intros (marker & Hin & Hc). exists marker.
    rewrite list_elem_of_In, <- lower_contains_iff. auto.
  - intros (marker & Hin & Hc). exists marker.
    rewrite <- list_elem_of_In, lower_contains_iff. auto.
Qed.

Lemma bot_response_guidance_nonempty : bot_response_guidance ≠ EmptyString.
Proof. discriminate. Qed.

(** C6.  With a loaded system prompt [p]: the result is [p] followed by
    the fixed block [bot_response_guidance] exactly when the sender's
    display name contains one of the markers up to case, and is [p] itself
    otherwise; the block does not depend on the sender; "Claude-Animal-42"
    gets the block and "Alice" does not. *)
Theorem adjust_system_prompt_for_sender_spec self p sender :
  system_prompt self = Some p →
  (_adjust_system_prompt_for_sender self sender = Ok (Some (p +:+ bot_response_guidance))
   ↔ automated_peer sender)
  ∧ (_adjust_system_prompt_for_sender self sender = Ok (Some p) ↔ ¬ automated_peer sender)
  ∧ _adjust_system_prompt_for_sender self "Claude-Animal-42"
    = Ok (Some (p +:+ bot_response_guidance))
  ∧ _adjust_system_prompt_for_sender self "Alice" = Ok (Some p).
Proof.
  intros Hp. unfold _adjust_system_prompt_for_sender. rewrite Hp.
  assert (p +:+ bot_response_guidance ≠ p) as Hne
    by (intros E; exact (bot_response_guidance_nonempty (append_fixpoint _ _ E))).
  split; [| split; [| split; reflexivity]].
  - rewrite <- sender_is_bot_iff. destruct (sender_is_bot sender); split; try done.
    intros E. injection E as E. symmetry in E. contradiction.
  - rewrite <- sender_is_bot_iff. destruct (sender_is_bot sender); split; try done.
    intros E. injection E as E. contradiction.
Qed.

Lemma adjust_system_prompt_for_sender_spec_witness :
  _adjust_system_prompt_for_sender sample_bot "Claude-Animal-42"
  = Ok (Some ("You are Tama." +:+ bot_response_guidance))
  ∧ _adjust_system_prompt_for_sender sample_bot "Alice" = Ok (Some "You are Tama.").
Proof.
  destruct (adjust_system_prompt_for_sender_spec sample_bot "You are Tama." "Alice")
    as (_ & _ & Hpeer & Hhuman).
  - reflexivity.
  - exact (conj Hpeer Hhuman).
Defined.

(** ** Loading the persona *)

Lemma default_character_truthy name :
  character_truthy (Some (default_character name)) = true.
Proof.
  unfold character_truthy, default_character.
  rewrite bool_decide_eq_false_2; [reflexivity |]. apply insert_non_empty.
Qed.

Lemma default_character_fields name :
  default_character name !! "name" = Some (VStr name)
  ∧ default_character name !! "personality" = Some (VStr "Friendly and helpful")
  ∧ default_character name !! "speaking_style" = Some (VStr "Casual and conversational")
  ∧ default_character name !! "language" = Some (VStr "English")
  ∧ default_character name !! "model" = Some (VStr "gpt-4").
Proof. unfold default_character. repeat split; by simplify_map_eq. Qed.

Lemma build_system_prompt_nonempty c role p :
  build_system_prompt c role = Ok p → p ≠ EmptyString.
Proof.
  unfold build_system_prompt. destruct role as [| x role]; simpl; intros E;
    injection E as <-; discriminate.
Qed.

Arguments default_character : simpl never.
Arguments character_truthy : simpl never.

(** C7.  Whatever the persona lookup does (a persona, nothing, an
    exception), and provided the prompt rendering of the Notion service
    never yields an empty text: the method ends without an exception, the
    bot then holds a non-empty persona and a non-empty system prompt; the
    persona is the one found or the fixed default; and when the lookup
    found nothing it is the default (friendly, casual, English, "gpt-4"),
    with the warning or the error written to the log. *)
Theorem load_character_settings_total `{NotionService} w self :
  (∀ c role p, format_character_prompt c role = Ok p → p ≠ EmptyString) →
  let res := load_character_settings w self in
  let name := notion_character_name (cfg self) in
  res.1.1 = Ok tt
  ∧ cfg res.1.2 = cfg self
  ∧ character_truthy (character res.1.2) = true
  ∧ (∃ p, system_prompt res.1.2 = Some p ∧ p ≠ EmptyString)
  ∧ (character res.1.2 = lookup_found (get_character w)
     ∨ character res.1.2 = Some (default_character name))
  ∧ (lookup_found (get_character w) = None →
       character res.1.2 = Some (default_character name)
       ∧ (Log WARNING ("Character " +:+ name
                       +:+ " not found in Notion. Using default settings.") ∈ res.2
          ∨ ∃ e, Log ERROR ("Failed to load character settings: " +:+ e) ∈ res.2))
  ∧ default_character name !! "personality" = Some (VStr "Friendly and helpful")
  ∧ default_character name !! "speaking_style" = Some (VStr "Casual and conversational")
  ∧ default_character name !! "language" = Some (VStr "English")
  ∧ default_character name !! "model" = Some (VStr "gpt-4").
Proof.
  intros Hfmt res name.
  destruct (default_character_fields name) as (_ & Hp & Hs & Hl & Hm).
  assert (res.1.1 = Ok tt
    ∧ cfg res.1.2 = cfg self
    ∧ character_truthy (character res.1.2) = true
    ∧ (∃ p, system_prompt res.1.2 = Some p ∧ p ≠ EmptyString)
    ∧ (character res.1.2 = lookup_found (get_character w)
       ∨ character res.1.2 = Some (default_character name))
    ∧ (lookup_found (get_character w) = None →
         character res.1.2 = Some (default_character name)
         ∧ (Log WARNING ("Character " +:+ name
                         +:+ " not found in Notion. Using default settings.") ∈ res.2
            ∨ ∃ e, Log ERROR ("Failed to load character settings: " +:+ e) ∈ res.2)))
    as Hmain; [| tauto].
  subst res name. unfold load_character_settings.
  unfold try_except, bind, await, lift, get, modify, logger, emit, ret. simpl.
  assert (∀ q : string, ∃ p, Some ("You are " +:+ q) = Some p ∧ p ≠ EmptyString) as Hyou
    by (intros q; eexists; split; [reflexivity | discriminate]).
  destruct (get_character w) as [found | e] eqn:Hget; simpl.
  - destruct (character_truthy found) eqn:Htruthy; simpl.
    + destruct (format_character_prompt (default ∅ found) (base_role (cfg self)))
        as [p | e] eqn:Hf; simpl.
      * split_and!; [done | done | done | eauto | by left |].
        intros ->. discriminate.
      * destruct (PyStr.truthy (base_role (cfg self))); simpl;
          (split_and!;
           [done | done | apply default_character_truthy | apply Hyou | by right
           | intros ->; discriminate ]).
    + destruct (format_character_prompt (default_character (notion_character_name (cfg self)))
                  (base_role (cfg self))) as [p | e] eqn:Hf; simpl.
      * split_and!; [done | done | apply default_character_truthy | eauto | by right |].
        intros _. split; [done |]. left. set_solver.
      * destruct (PyStr.truthy (base_role (cfg self))); simpl;
          (split_and!;
           [done | done | apply default_character_truthy | apply Hyou | by right
           | intros _; split; [done |]; left; set_solver ]).
  - destruct (PyStr.truthy (base_role (cfg self))); simpl;
      (split_and!;
       [done | done | apply default_character_truthy | apply Hyou | by right
       | intros _; split; [done |]; right; exists e; set_solver ]).
Qed.

Lemma load_character_settings_total_witness :
  let res := @load_character_settings SpecNotionService calm_world fresh_bot in
  res.1.1 = Ok tt
  ∧ character res.1.2 = Some (default_character "zoo-cat")
  ∧ ∃ p, system_prompt res.1.2 = Some p ∧ p ≠ EmptyString.
Proof.
  destruct (@load_character_settings_total SpecNotionService calm_world fresh_bot)
    as (Hok & _ & _ & Hprompt & _ & Hnone & _).
  - intros c role p. apply build_system_prompt_nonempty.
  - split; [exact Hok |]. split; [apply Hnone; reflexivity | exact Hprompt].
Defined.

(** ** The introduction message *)

Lemma lines_nonempty s : PyStr.lines s ≠ [].
Proof.
  destruct s as [| c s]; simpl; [discriminate |].
  destruct (Ascii.eqb c PyStr.LF); [discriminate |].
  destruct (PyStr.lines s); discriminate.
Qed.

(** A line feed between two texts separates their lines. *)
Lemma lines_app_lf a b :
  PyStr.lines (a +:+ String PyStr.LF b) = PyStr.lines a ++ PyStr.lines b.
Proof.
  induction a as [| c a IH]; [reflexivity |].
  rewrite append_cons. simpl. rewrite IH.
  destruct (Ascii.eqb c PyStr.LF); [reflexivity |].
  pose proof (lines_nonempty a). destruct (PyStr.lines a); [done | reflexivity].
Qed.

Lemma join_cons sep x y parts :
  PyStr.join sep (x :: y :: parts) = x +:+ sep +:+ PyStr.join sep (y :: parts).
Proof. reflexivity. Qed.

Lemma lines_join parts :
  parts ≠ [] →
  PyStr.lines (PyStr.join (String PyStr.LF EmptyString) parts)
  = List.concat (map PyStr.lines parts).
Proof.
  induction parts as [| x parts IH]; [done |]. intros _.
  destruct parts as [| y parts].
  - simpl. rewrite app_nil_r. reflexivity.
  - rewrite join_cons. change (String PyStr.LF EmptyString +:+ ?r) with (String PyStr.LF r).
    rewrite lines_app_lf, IH by done. reflexivity.
Qed.

Lemma join_snoc sep parts x :
  parts ≠ [] → PyStr.join sep (parts ++ [x]) = PyStr.join sep parts +:+ sep +:+ x.
Proof.
  induction parts as [| y parts IH]; [done |]. intros _.
  destruct parts as [| z parts]; [reflexivity |].
  change ((y :: z :: parts) ++ [x]) with (y :: (z :: parts) ++ [x]).
  change ((z :: parts) ++ [x]) with (z :: parts ++ [x]) at 1.
  rewrite join_cons. change (z :: parts ++ [x]) with ((z :: parts) ++ [x]).
  rewrite IH by done. rewrite join_cons, !append_assoc. reflexivity.
Qed.

Lemma single_line_lines s : PyStr.single_line s = true → PyStr.lines s = [s].
Proof.
  induction s as [| c s IH]; [reflexivity |]. simpl.
  destruct (Ascii.eqb c PyStr.LF); [discriminate |]. simpl. intros Hs.
  rewrite (IH Hs). reflexivity.
Qed.

Lemma single_line_app a b :
  PyStr.single_line (a +:+ b) = PyStr.single_line a && PyStr.single_line b.
Proof.
  induction a as [| c a IH]; [reflexivity |].
  rewrite append_cons. simpl. rewrite IH, andb_assoc. reflexivity.
Qed.

Lemma single_line_join sep parts :
  PyStr.single_line sep = true → forallb PyStr.single_line parts = true →
  PyStr.single_line (PyStr.join sep parts) = true.
Proof.
  intros Hsep. induction parts as [| x parts IH]; [reflexivity |].
  simpl. intros [Hx Hparts]%andb_true_iff.
  destruct parts as [| y parts]; [exact Hx |].
  change (PyStr.single_line (x +:+ sep +:+ PyStr.join sep (y :: parts)) = true).
  rewrite !single_line_app, Hx, Hsep, (IH Hparts). reflexivity.
Qed.

(** [repr] escapes every line feed. *)
Lemma repr_char_single_line q c :
  q = "'"%char ∨ q = ascii_of_N 34 → PyStr.single_line (PyRepr.repr_char q c) = true.
Proof.
  intros [-> | ->]; destruct c as [[|] [|] [|] [|] [|] [|] [|] [|]]; reflexivity.
Qed.

Lemma repr_body_single_line q s :
  q = "'"%char ∨ q = ascii_of_N 34 → PyStr.single_line (PyRepr.repr_body q s) = true.
Proof.
  intros Hq. induction s as [| c s IH]; [reflexivity |].
  simpl. rewrite single_line_app, (repr_char_single_line q c Hq), IH. reflexivity.
Qed.

Lemma repr_str_single_line s : PyStr.single_line (PyRepr.repr_str s) = true.
Proof.
  unfold PyRepr.repr_str.
  destruct (PyStr.contains _ s && negb (PyStr.contains _ s));
    cbn [PyStr.single_line]; rewrite single_line_app, repr_body_single_line by auto;
    reflexivity.
Qed.

Lemma str_single_line v :
  value_single_line v = true → PyStr.single_line (PyRepr.str v) = true.
Proof.
  destruct v as [s | items]; [intros Hs; exact Hs |]. intros _. simpl.
  rewrite !single_line_app. simpl. rewrite andb_true_r.
  apply single_line_join; [reflexivity |].
  induction items as [| x items IH]; [reflexivity |].
  cbn [map forallb]. rewrite repr_str_single_line, IH. reflexivity.
Qed.

Lemma interests_str_single_line v :
  value_single_line v = true → PyStr.single_line (interests_str v) = true.
Proof.
  destruct v as [s | items]; [intros Hs; exact Hs |]. simpl.
  apply single_line_join. reflexivity.
Qed.

(** The guard [self.character and key in self.character] holds exactly
    when the persona has the field. *)
Lemma has_field_lookup self key :
  has_field self key = match persona_field self key with Some _ => true | None => false end.
Proof.
  unfold has_field, persona_field, character_truthy.
  destruct (character self) as [c |]; [| reflexivity]. simpl.
  destruct (c !! key) as [v |] eqn:Hv.
  - rewrite bool_decide_eq_false_2.
    + simpl. first [reflexivity | apply bool_decide_eq_true_2; eauto].
    + intros ->. rewrite lookup_empty in Hv. discriminate.
  - rewrite (bool_decide_eq_false_2 (is_Some None)); [apply andb_false_r |].
    intros [? ?]. discriminate.
Qed.

Lemma field_line self label render key :
  (if has_field self key then [label +:+ render (field self key)] else [])
  = optional_line self label render key.
Proof.
  rewrite has_field_lookup. unfold optional_line, field, persona_field.
  destruct (character self ≫= (.!! key)); reflexivity.
Qed.

Lemma join_head sep x parts :
  parts ≠ [] → PyStr.join sep (x :: parts) = x +:+ sep +:+ PyStr.join sep parts.
Proof. destruct parts; [done | reflexivity]. Qed.

Lemma append_nonempty a b : a ≠ EmptyString → a +:+ b ≠ EmptyString.
Proof. destruct a; [done | discriminate]. Qed.

Lemma optional_line_nonempty self label render key :
  label ≠ EmptyString →
  Forall (fun part => part ≠ EmptyString) (optional_line self label render key).
Proof.
  intros Hl. unfold optional_line. destruct (persona_field self key); simpl; [| constructor].
  repeat constructor. apply append_nonempty, Hl.
Qed.

Lemma optional_line_single self label render key :
  PyStr.single_line label = true →
  (∀ v, value_single_line v = true → PyStr.single_line (render v) = true) →
  (∀ c, character self = Some c → map_Forall (fun _ v => value_single_line v = true) c) →
  Forall (fun part => PyStr.single_line part = true) (optional_line self label render key).
Proof.
  intros Hl Hr Hc. unfold optional_line, persona_field.
  destruct (character self) as [c |]; simpl; [| constructor].
  destruct (c !! key) as [v |] eqn:Hv; simpl; [| constructor].
  repeat constructor. rewrite single_line_app, Hl. apply Hr. exact (Hc c eq_refl key v Hv).
Qed.

Lemma blank_line_concat parts :
  EmptyString ∉ List.concat (map PyStr.lines parts) ↔ Forall no_blank_line parts.
Proof.
  induction parts as [| x parts IH]; simpl.
  - split; [constructor | intros _; apply not_elem_of_nil].
  - rewrite not_elem_of_app, Forall_cons, IH. reflexivity.
Qed.

Lemma lines_of_single_lines parts :
  Forall (fun part => PyStr.single_line part = true) parts →
  List.concat (map PyStr.lines parts) = parts.
Proof.
  induction 1 as [| x parts Hx _ IH]; [reflexivity |].
  simpl. rewrite (single_line_lines x Hx), IH. reflexivity.
Qed.

(** C9, as the source has it.  The introduction is the join, with single
    line feeds, of the parts that the design lists: the greeting with the display name, one
    line for each of personality, speaking style, interests, background
    and model exactly when the persona has that field (a list of interests
    joined into one text), the extra line of a subclass when it gives a
    non-empty one, the invitation.  The text begins with the greeting line
    and ends with the invitation line.  No part is empty, and the lines of
    the text are the lines of the parts, so leaving a field out never
    leaves a blank line: the text has a blank line only if a part has one
    inside, and none when the texts going in are single lines. *)
Theorem generate_introduction_message_shape `{Hooks} self :
  let out := generate_introduction_message self in
  let lf := String PyStr.LF EmptyString in
  intro_parts self = render_introduction self
  ∧ out = greeting self +:+ lf +:+ PyStr.join lf (tail (intro_parts self))
  ∧ out = PyStr.join lf (removelast (intro_parts self)) +:+ lf +:+ invitation
  ∧ Forall (fun part => part ≠ EmptyString) (intro_parts self)
  ∧ PyStr.lines out = List.concat (map PyStr.lines (intro_parts self))
  ∧ (no_blank_line out ↔ Forall no_blank_line (intro_parts self))
  ∧ (single_line_persona self → PyStr.lines out = intro_parts self ∧ no_blank_line out).
Proof.
  intros out lf.
  assert (intro_parts self = render_introduction self) as Hparts.
  { unfold intro_parts, render_introduction. rewrite !field_line.
    destruct (get_additional_introduction_info self); cbn [app from_option];
      f_equal; rewrite <- ?app_assoc; reflexivity. }
  assert (PyStr.lines out = List.concat (map PyStr.lines (intro_parts self))) as Hlines.
  { apply lines_join. discriminate. }
  assert (Forall (fun part => part ≠ EmptyString) (intro_parts self)) as Hfull.
  { rewrite Hparts. unfold render_introduction.
    rewrite Forall_cons, !Forall_app. split_and!;
      try (apply optional_line_nonempty; discriminate).
    - apply append_nonempty. discriminate.
    - destruct (get_additional_introduction_info self) as [[| c extra] |]; simpl;
        repeat constructor. discriminate.
    - repeat constructor. discriminate. }
  split_and!; try assumption.
  - subst out. unfold generate_introduction_message. rewrite Hparts.
    unfold render_introduction. cbn [tail]. apply join_head.
    intros E. apply app_eq_nil in E as [_ E]. discriminate.
  - subst out. unfold generate_introduction_message. rewrite Hparts.
    unfold render_introduction. rewrite app_comm_cons, removelast_last.
    apply join_snoc. discriminate.
  - unfold no_blank_line at 1. rewrite Hlines. apply blank_line_concat.
  - intros (Hname & Hfields & Hextra).
    assert (Forall (fun part => PyStr.single_line part = true) (intro_parts self)) as Hsingle.
    { rewrite Hparts. unfold render_introduction.
      rewrite Forall_cons, !Forall_app. split_and!;
        try (apply optional_line_single;
             [reflexivity | first [exact str_single_line | exact interests_str_single_line]
             | exact Hfields]).
      - unfold greeting. rewrite !single_line_app, Hname. reflexivity.
      - destruct (get_additional_introduction_info self) as [extra |] eqn:He; simpl;
          [| constructor].
        destruct (PyStr.truthy extra); repeat constructor. apply Hextra. reflexivity.
      - repeat constructor. }
    assert (PyStr.lines out = intro_parts self) as Heq
      by (rewrite Hlines; apply lines_of_single_lines, Hsingle).
    split; [exact Heq |]. unfold no_blank_line. rewrite Heq.
    intros Hin. rewrite Forall_forall in Hfull. exact (Hfull _ Hin eq_refl).
Qed.

Lemma generate_introduction_message_shape_witness :
  PyStr.lines (@generate_introduction_message ExtraHooks full_bot)
  = [ "こんにちは！私はTamaです。";
      "性格: Friendly and helpful";
      "話し方: Casual and conversational";
      "興味・関心: fish、naps";
      "背景: Born in the zoo.";
      "使用モデル: gpt-4";
      "I answer in haiku.";
      "気軽に話しかけてください！" ]
  ∧ no_blank_line (@generate_introduction_message ExtraHooks full_bot).
Proof.
  destruct (@generate_introduction_message_shape ExtraHooks full_bot)
    as (_ & _ & _ & _ & _ & _ & Hsingle).
  destruct Hsingle as [Hlines Hnone].
  - split_and!.
    + reflexivity.
    + intros c [= <-]. unfold full_character, default_character.
      repeat (apply map_Forall_insert_2; [reflexivity |]). apply map_Forall_empty.
    + intros extra [= <-]. reflexivity.
  - split; [rewrite Hlines; reflexivity | exact Hnone].
Defined.

(** C9 as worded fails: field texts go into the introduction as they are,
    so a persona whose background has two paragraphs gives an
    introduction with a blank line. *)
Lemma introduction_with_blank_line :
  has_field paragraph_bot "background" = true
  ∧ PyStr.lines (@generate_introduction_message BaseHooks paragraph_bot)
    = [ "こんにちは！私はTamaです。";
        "性格: Friendly and helpful";
        "話し方: Casual and conversational";
        "背景: Born in the zoo.";
        "";
        "Raised by the keepers.";
        "使用モデル: gpt-4";
        "気軽に話しかけてください！" ]
  ∧ ¬ no_blank_line (@generate_introduction_message BaseHooks paragraph_bot).
Proof.
  assert (PyStr.lines (@generate_introduction_message BaseHooks paragraph_bot)
          = [ "こんにちは！私はTamaです。";
              "性格: Friendly and helpful";
              "話し方: Casual and conversational";
              "背景: Born in the zoo.";
              "";
              "Raised by the keepers.";
              "使用モデル: gpt-4";
              "気軽に話しかけてください！" ]) as Hlines by reflexivity.
  split; [reflexivity |]. split; [exact Hlines |].
  unfold no_blank_line. rewrite Hlines. intros Hnot. apply Hnot.
  do 4 apply list_elem_of_further. apply list_elem_of_here.
Qed.

(** ** No channel configured *)

Section NoChannel.
Context `{Hooks} `{NotionService}.

(** Loading the persona never raises, sends nothing and keeps the
    configuration. *)
Lemma load_character_settings_frame w self :
  let res := load_character_settings w self in
  res.1.1 = Ok tt ∧ cfg res.1.2 = cfg self ∧ filter is_send res.2 = [].
Proof.
  unfold load_character_settings.
  unfold try_except, bind, await, lift, get, modify, logger, emit, ret. simpl.
  destruct (get_character w) as [found | e]; simpl.
  - destruct (character_truthy found); simpl;
      destruct (format_character_prompt _ _); simpl;
      try destruct (PyStr.truthy (base_role (cfg self))); simpl; done.
  - destruct (PyStr.truthy (base_role (cfg self))); simpl; done.
Qed.

Lemma on_ready_without_channel w user_name self :
  channel_id (cfg self) = 0 → filter is_send (on_ready w user_name self).2 = [].
Proof.
  intros Hz. unfold on_ready.
  destruct (load_character_settings_frame w self) as (Hok & Hcfg & Hsend).
  unfold bind at 1. cbn [logger emit]. unfold bind at 1.
  destruct (load_character_settings w self) as [[r self1] t1]. simpl in Hok, Hcfg, Hsend.
  subst r. unfold bind, get. rewrite Hcfg, (bool_decide_eq_true_2 _ Hz). simpl.
  rewrite app_nil_r. exact Hsend.
Qed.

End NoChannel.

Lemma init_channel_id environ file u name prefix self t0 :
  environ !! "CHANNEL_ID" = None ∨ environ !! "CHANNEL_ID" = Some "0" →
  init environ file u name prefix = Ok (self, t0) →
  channel_id (cfg self) = 0.
Proof.
  intros Henv. unfold init, environ_get.
  assert (PyInt.int (default "0" (environ !! "CHANNEL_ID")) = Ok 0) as ->
    by (destruct Henv as [-> | ->]; reflexivity).
  unfold obind.
  destruct (PyInt.int _); [| discriminate].
  destruct (PyInt.int _); [| discriminate].
  destruct (PyInt.int _); [| discriminate].
  destruct (_load_base_role file). intros [= <- _]. reflexivity.
Qed.

(** C10.  When [CHANNEL_ID] is absent from the environment or is "0", the
    bot is built with [channel_id] 0, and from then on, in every state
    with that configuration: a message of another user passes the channel
    filter whatever its channel, it is handed to command processing, and
    when it is no command and the bot is not cooling down it is appended
    to the store as a turn; [on_ready] sends no introduction. *)
Theorem channel_filter_disabled `{Hooks} `{NotionService}
    environ file u name prefix self0 t0 :
  environ !! "CHANNEL_ID" = None ∨ environ !! "CHANNEL_ID" = Some "0" →
  init environ file u name prefix = Ok (self0, t0) →
  channel_id (cfg self0) = 0
  ∧ (∀ self now w message,
       cfg self = cfg self0 → from_other self message →
       in_channel self message
       ∧ head (on_message now w message self).2 = Some (ProcessCommands message)
       ∧ (is_command self message = false → in_cooldown self = false →
          ConversationManager.history (conversation_manager (on_message now w message self).1)
          = ConversationManager.history (recorded (conversation_manager self) message)))
  ∧ (∀ self w user_name,
       cfg self = cfg self0 → filter is_send (on_ready w user_name self).2 = []).
Proof.
  intros Henv Hinit.
  pose proof (init_channel_id _ _ _ _ _ _ _ Henv Hinit) as Hz.
  split; [exact Hz |]. split.
  - intros self now w message Hcfg Hother.
    assert (in_channel self message) as Hchan by (left; rewrite Hcfg; exact Hz).
    split; [exact Hchan |].
    rewrite (on_message_filtered _ _ _ _ Hother Hchan). split.
    + cbv zeta. repeat case_match; reflexivity.
    + intros -> ->. cbv zeta. repeat case_match; reflexivity.
  - intros self w user_name Hcfg. apply on_ready_without_channel.
    rewrite Hcfg. exact Hz.
Qed.

Lemma channel_filter_disabled_witness :
  channel_id (cfg booted_bot) = 0
  ∧ ConversationManager.history
      (conversation_manager (@on_message BaseHooks 100 calm_world elsewhere booted_bot).1)
    = ConversationManager.history (recorded (conversation_manager booted_bot) elsewhere)
  ∧ filter is_send (@on_ready BaseHooks SpecNotionService calm_world "Tama#0001" booted_bot).2
    = [].
Proof.
  destruct (@channel_filter_disabled BaseHooks SpecNotionService
              ∅ (Raise "no file") 1 "Tama" "!" booted_bot
              [Log ERROR ("基本ロールスクリプトの読み込みに失敗: " +:+ "no file")])
    as (Hz & Hmsg & Hready).
  - left. reflexivity.
  - reflexivity.
  - split; [exact Hz |]. split.
    + apply (Hmsg booted_bot 100 calm_world elsewhere eq_refl);
        [unfold from_other; simpl; lia | reflexivity | reflexivity].
    + apply (Hready booted_bot calm_world "Tama#0001" eq_refl).
Defined.

(** * Further properties of the handlers *)

(** ** [on_message] *)

(** X1.  The handler is silent exactly for the bot's own messages and,
    when a channel is configured, for messages of any other channel: then
    it has no effect and leaves the bot as it was.  Every other message is
    first handed to command processing, and creates at most one task. *)
Theorem on_message_silent_iff `{Hooks} now w message self :
  ((on_message now w message self).2 = []
   ↔ ¬ (from_other self message ∧ in_channel self message))
  ∧ ((on_message now w message self).2 = [] → (on_message now w message self).1 = self)
  ∧ ((on_message now w message self).2 ≠ [] →
     head (on_message now w message self).2 = Some (ProcessCommands message)
     ∧ (List.length (filter is_task (on_message now w message self).2) ≤ 1)%nat).
Proof.
  destruct (decide (from_other self message ∧ in_channel self message)) as [[Ho Hc] | Hn].
  - rewrite (on_message_filtered _ _ _ _ Ho Hc). cbv zeta.
    repeat case_match; simpl; (split_and!; [split; [done | tauto] | done | intros _; split; [done | simpl; lia]]).
  - rewrite (on_message_ignored _ _ _ _ Hn). simpl. split_and!; [tauto | done | done].
Qed.

(** X2.  The eligibility hook decides about the response task and about
    nothing else: with any two hooks the handler leaves the same bot
    object and, the response task apart, the same effects. *)
Theorem on_message_hook_only_gates_reply (h1 h2 : Hooks) now w message self :
  (@on_message h1 now w message self).1 = (@on_message h2 now w message self).1
  ∧ filter (fun fx => is_respond_task fx = false) (@on_message h1 now w message self).2
    = filter (fun fx => is_respond_task fx = false) (@on_message h2 now w message self).2.
Proof.
  unfold on_message. repeat case_match; simpl; split; reflexivity.
Qed.

(** ** [respond_to_message] *)

Lemma model_of_default self :
  model_of self = default (VStr "gpt-4") (persona_field self "model").
Proof.
  unfold model_of, persona_field, character_truthy.
  destruct (character self) as [c |]; [| reflexivity]. simpl.
  destruct (bool_decide (c = ∅)) eqn:E; [| reflexivity].
  apply bool_decide_eq_true in E. subst c. reflexivity.
Qed.

(** X3.  Whatever the collaborators do, the response task ends without an
    exception and touches nothing but the conversation store; the store is
    either as before, or has exactly the backend's answer added as the
    bot's own reply, under the bot's display name. *)
Theorem respond_to_message_footprint w message self :
  let res := respond_to_message w message self in
  res.1.1 = Ok tt
  ∧ cfg res.1.2 = cfg self ∧ character res.1.2 = character self
  ∧ system_prompt res.1.2 = system_prompt self
  ∧ in_cooldown res.1.2 = in_cooldown self ∧ cooldown_until res.1.2 = cooldown_until self
  ∧ (conversation_manager res.1.2 = conversation_manager self
     ∨ ∃ response, generate_response w = Ok response
         ∧ conversation_manager res.1.2
           = ConversationManager.add_message (conversation_manager self)
               (character_name (cfg self)) response true).
Proof.
  unfold respond_to_message. run_m; split_and!; eauto;
    match goal with |- Ok ?u = Ok tt => by destruct u end.
Qed.

(** X4.  Whatever the task hands to [channel.send] goes to the channel of
    the message it answers, is the text the backend returned, is the only
    send of the task, and is by then recorded in the store as the bot's
    reply. *)
Theorem respond_to_message_sends_the_reply w message self chan body :
  ChannelSend chan body ∈ (respond_to_message w message self).2 →
  let res := respond_to_message w message self in
  chan = channel message
  ∧ generate_response w = Ok body
  ∧ filter is_send res.2 = [ChannelSend chan body]
  ∧ conversation_manager res.1.2
    = ConversationManager.add_message (conversation_manager self)
        (character_name (cfg self)) body true.
Proof.
  unfold respond_to_message. run_m; intros Hin;
    repeat (apply elem_of_cons in Hin as [Hin | Hin]; [try discriminate |]);
    try (by apply elem_of_nil in Hin);
    injection Hin as -> ->; done.
Qed.

Lemma respond_to_message_sends_the_reply_witness :
  filter is_send (respond_to_message calm_world hello sample_bot).2
  = [ChannelSend 77 "meow"].
Proof.
  apply (respond_to_message_sends_the_reply calm_world hello sample_bot 77 "meow").
  vm_compute. set_solver.
Defined.

(** X5.  When the backend answered and the send then fails, the answer
    stays recorded in the store as the bot's reply although it was never
    delivered; the failure is logged and no exception leaves the task. *)
Theorem respond_to_message_send_failure w message self response e :
  generate_response w = Ok response → channel_send w = Raise e →
  (∃ msgs model, GenerateResponse msgs model ∈ (respond_to_message w message self).2) →
  let res := respond_to_message w message self in
  res.1.1 = Ok tt
  ∧ conversation_manager res.1.2
    = ConversationManager.add_message (conversation_manager self)
        (character_name (cfg self)) response true
  ∧ last res.2 = Some (Log ERROR ("Failed to respond to message: " +:+ e)).
Proof.
  intros Hllm Hsend. unfold respond_to_message. rewrite Hllm, Hsend.
  run_m; intros (msgs & model & Hin); try done;
    repeat (apply elem_of_cons in Hin as [Hin | Hin]; [try discriminate |]);
    by apply elem_of_nil in Hin.
Qed.

Lemma respond_to_message_send_failure_witness :
  let res := respond_to_message send_failing_world hello sample_bot in
  res.1.1 = Ok tt
  ∧ conversation_manager res.1.2
    = ConversationManager.add_message (conversation_manager sample_bot) "Tama" "meow" true
  ∧ last res.2 = Some (Log ERROR "Failed to respond to message: Forbidden").
Proof.
  apply (respond_to_message_send_failure send_failing_world hello sample_bot
           "meow" "Forbidden"); [reflexivity | reflexivity |].
  eexists _, _. vm_compute. do 2 apply list_elem_of_further. apply list_elem_of_here.
Defined.

(** X6.  The backend is called only after the delay and the typing
    simulation went through, with the persona's model (a text; "gpt-4"
    when the persona has none), with the store as it is rendered under
    the sender-adjusted system prompt, in the OpenAI shape exactly when
    the model name starts with "gpt"; and the typing was simulated for a
    length between 50 and 200 in the channel of the message. *)
Theorem respond_to_message_backend_call w message self msgs model :
  GenerateResponse msgs model ∈ (respond_to_message w message self).2 →
  delay_response w = Ok tt ∧ simulate_typing w = Ok tt
  ∧ default (VStr "gpt-4") (persona_field self "model") = VStr model
  ∧ (∃ prompt,
       _adjust_system_prompt_for_sender self (display_name (author message)) = Ok prompt
       ∧ msgs = (if PyStr.startswith model "gpt"
                 then ConversationManager.format_for_openai
                 else ConversationManager.format_for_anthropic)
                  (conversation_manager self) prompt)
  ∧ (∃ len, 50 ≤ len ≤ 200
       ∧ SimulateTyping (channel message) len ∈ (respond_to_message w message self).2).
Proof.
  rewrite <- model_of_default.
  unfold respond_to_message. unfold model_startswith.
  run_m; intros Hin;
    repeat (apply elem_of_cons in Hin as [Hin | Hin]; [try discriminate |]);
    try (by apply elem_of_nil in Hin);
    injection Hin as -> ->; try congruence;
    (split_and!;
     [ match goal with |- Ok ?u = Ok tt => by destruct u end
     | match goal with |- Ok ?u = Ok tt => by destruct u end
     | reflexivity
     | eexists; split; reflexivity
     | eexists; split; [exact (randint_range 50 200 (typing_draw w) ltac:(lia)) |];
       apply list_elem_of_further, list_elem_of_here ]).
Qed.

Lemma respond_to_message_backend_call_witness :
  delay_response calm_world = Ok tt ∧ simulate_typing calm_world = Ok tt
  ∧ default (VStr "gpt-4") (persona_field sample_bot "model") = VStr "gpt-4".
Proof.
  destruct (respond_to_message_backend_call calm_world hello sample_bot
              (ConversationManager.format_for_openai (conversation_manager sample_bot)
                 (Some "You are Tama."))
              "gpt-4") as (Hd & Ht & Hm & _).
  - vm_compute. do 2 apply list_elem_of_further. apply list_elem_of_here.
  - exact (conj Hd (conj Ht Hm)).
Defined.

(** X7.  The response task never looks at the cooldown flag: a task that
    runs while the bot is cooling down does and sends exactly what it
    would otherwise, and leaves the flag as it found it. *)
Theorem respond_to_message_ignores_cooldown w message self flag :
  let res := respond_to_message w message self in
  let res' := respond_to_message w message (set_in_cooldown self flag) in
  res'.2 = res.2 ∧ res'.1.1 = res.1.1 ∧ res'.1.2 = set_in_cooldown res.1.2 flag.
Proof.
  unfold respond_to_message, _adjust_system_prompt_for_sender, model_of, model_startswith.
  run_m; done.
Qed.

(** X8.  Before the persona is loaded the system prompt is [None]: for a
    sender that is an automated peer the adjustment raises a [TypeError],
    for any other sender it returns [None].  A response task for a peer's
    message then calls no backend, sends nothing, leaves the bot as it
    was and, once past the delay, logs that error. *)
Theorem adjust_system_prompt_unloaded self sender :
  system_prompt self = None →
  let type_error := "unsupported operand type(s) for +=: 'NoneType' and 'str'" in
  (automated_peer sender →
     _adjust_system_prompt_for_sender self sender = Raise type_error)
  ∧ (¬ automated_peer sender → _adjust_system_prompt_for_sender self sender = Ok None)
  ∧ (∀ w message,
       display_name (author message) = sender → automated_peer sender →
       let res := respond_to_message w message self in
       res.1.2 = self ∧ filter is_generate res.2 = [] ∧ filter is_send res.2 = []
       ∧ (delay_response w = Ok tt →
          last res.2 = Some (Log ERROR ("Failed to respond to message: " +:+ type_error)))).
Proof.
  intros Hnone type_error.
  assert (automated_peer sender →
          _adjust_system_prompt_for_sender self sender = Raise type_error) as Hraise.
  { intros Hpeer%sender_is_bot_iff. unfold _adjust_system_prompt_for_sender.
    rewrite Hpeer, Hnone. reflexivity. }
  split; [exact Hraise |]. split.
  - intros Hhuman. unfold _adjust_system_prompt_for_sender.
    destruct (sender_is_bot sender) eqn:E; [| by rewrite Hnone].
    apply sender_is_bot_iff in E. contradiction.
  - intros w message <- Hpeer. unfold respond_to_message.
    unfold try_except, bind, await, lift, get, modify, logger, emit, ret. simpl.
    destruct (delay_response w) as [[] | e]; simpl.
    + rewrite (Hraise Hpeer). simpl. split_and!; done.
    + split_and!; done.
Qed.

Lemma adjust_system_prompt_unloaded_witness :
  _adjust_system_prompt_for_sender fresh_bot "Claude-Animal-42"
  = Raise "unsupported operand type(s) for +=: 'NoneType' and 'str'"
  ∧ _adjust_system_prompt_for_sender fresh_bot "Alice" = Ok None
  ∧ filter is_generate (respond_to_message calm_world peer_hello fresh_bot).2 = [].
Proof.
  destruct (adjust_system_prompt_unloaded fresh_bot "Claude-Animal-42" eq_refl)
    as (Hpeer & _ & Htask).
  destruct (adjust_system_prompt_unloaded fresh_bot "Alice" eq_refl) as (_ & Hhuman & _).
  assert (automated_peer "Claude-Animal-42") as Hp
    by (apply sender_is_bot_iff; reflexivity).
  split; [exact (Hpeer Hp) |]. split.
  - apply Hhuman. intros Hq%sender_is_bot_iff. discriminate.
  - apply (Htask calm_world peer_hello eq_refl Hp).
Defined.

(** ** Who counts as an automated peer *)

Lemma contains_trans a b c :
  PyStr.contains a b = true → PyStr.contains b c = true → PyStr.contains a c = true.
Proof.
  rewrite !contains_iff. intros (p1 & q1 & ->) (p2 & q2 & ->).
  exists (p2 +:+ p1), (q1 +:+ q2). rewrite !append_assoc. reflexivity.
Qed.

Lemma lower_ascii_idem c : PyStr.lower_ascii (PyStr.lower_ascii c) = PyStr.lower_ascii c.
Proof. destruct c as [[|] [|] [|] [|] [|] [|] [|] [|]]; reflexivity. Qed.

Lemma lower_idem s : PyStr.lower (PyStr.lower s) = PyStr.lower s.
Proof.
  induction s as [| c s IH]; [reflexivity |]. simpl. rewrite lower_ascii_idem, IH.
  reflexivity.
Qed.

(** X9.  Of the four markers only "gpt-4o" and "claude" matter: a display
    name is taken for an automated peer exactly when its lower-cased form
    contains one of these two; and the test does not change when the name
    is lower-cased first. *)
Theorem sender_is_bot_two_markers sender :
  sender_is_bot sender
  = PyStr.contains "gpt-4o" (PyStr.lower sender)
    || PyStr.contains "claude" (PyStr.lower sender)
  ∧ sender_is_bot (PyStr.lower sender) = sender_is_bot sender.
Proof.
  assert (∀ name, sender_is_bot name
          = PyStr.contains "gpt-4o" (PyStr.lower name)
            || PyStr.contains "claude" (PyStr.lower name)) as Htwo.
  { intros name. unfold sender_is_bot, bot_names. cbn [existsb].
    change (PyStr.lower "gpt-4o-animal") with "gpt-4o-animal".
    change (PyStr.lower "claude-animal") with "claude-animal".
    change (PyStr.lower "gpt-4o") with "gpt-4o".
    change (PyStr.lower "claude") with "claude".
    pose proof (contains_trans "gpt-4o" "gpt-4o-animal" (PyStr.lower name) eq_refl) as Hg.
    pose proof (contains_trans "claude" "claude-animal" (PyStr.lower name) eq_refl) as Hc.
    destruct (PyStr.contains "gpt-4o-animal" _); [rewrite Hg by done; reflexivity |].
    destruct (PyStr.contains "claude-animal" _);
      [rewrite Hc by done; simpl; apply eq_sym, orb_true_r |].
    simpl. rewrite orb_false_r. reflexivity. }
  split; [apply Htwo |]. rewrite !Htwo, lower_idem. reflexivity.
Qed.

(** ** [send_scheduled_message] *)

(** X10.  A scheduled message is sent at most once, to the configured
    channel and unchanged, and only when a channel is configured and
    found; otherwise an error is logged and nothing is sent.  A failing
    send ends the method with its exception and without the final log
    line.  The bot object is never changed. *)
Theorem send_scheduled_message_spec w message self :
  let res := send_scheduled_message w message self in
  let cid := channel_id (cfg self) in
  res.1.2 = self
  ∧ (cid = 0 →
     res.1.1 = Ok tt
     ∧ res.2 = [Log ERROR "No channel ID specified for scheduled message"])
  ∧ (cid ≠ 0 → get_channel w = None →
     res.1.1 = Ok tt
     ∧ res.2 = [Log ERROR ("Could not find channel with ID: " +:+ pretty cid)])
  ∧ (cid ≠ 0 → is_Some (get_channel w) →
     (channel_send w = Ok tt →
      res.1.1 = Ok tt
      ∧ res.2 = [ChannelSend cid message;
                 Log INFO ("Sent scheduled message: " +:+ message)])
     ∧ (∀ e, channel_send w = Raise e →
        res.1.1 = Raise e ∧ res.2 = [ChannelSend cid message])).
Proof.
  unfold send_scheduled_message, bind, await, get, logger, emit. simpl.
  split_and!.
  - repeat case_match; simplify_eq/=; reflexivity.
  - intros Hz. rewrite (bool_decide_eq_true_2 _ Hz). done.
  - intros Hz Hnone. rewrite (bool_decide_eq_false_2 _ Hz), Hnone. done.
  - intros Hz [name Hname]. rewrite (bool_decide_eq_false_2 _ Hz), Hname. split.
    + intros ->. done.
    + intros e ->. done.
Qed.

Lemma send_scheduled_message_spec_witness :
  (send_scheduled_message calm_world "feeding time" booted_bot).2
  = [Log ERROR "No channel ID specified for scheduled message"]
  ∧ (send_scheduled_message lost_channel_world "feeding time" sample_bot).2
    = [Log ERROR "Could not find channel with ID: 77"]
  ∧ (send_scheduled_message calm_world "feeding time" sample_bot).2
    = [ChannelSend 77 "feeding time"; Log INFO "Sent scheduled message: feeding time"]
  ∧ (send_scheduled_message send_failing_world "feeding time" sample_bot).1.1
    = Raise "Forbidden".
Proof.
  destruct (send_scheduled_message_spec calm_world "feeding time" booted_bot)
    as (_ & Hzero & _).
  destruct (send_scheduled_message_spec lost_channel_world "feeding time" sample_bot)
    as (_ & _ & Hlost & _).
  destruct (send_scheduled_message_spec calm_world "feeding time" sample_bot)
    as (_ & _ & _ & Hsent).
  destruct (send_scheduled_message_spec send_failing_world "feeding time" sample_bot)
    as (_ & _ & _ & Hfail).
  split_and!.
  - apply Hzero. reflexivity.
  - apply Hlost; [discriminate | reflexivity].
  - apply Hsent; [discriminate | eexists; reflexivity | reflexivity].
  - apply Hfail with (e := "Forbidden"); [discriminate | eexists; reflexivity | reflexivity].
Defined.

(** ** [load_character_settings] and [on_ready] *)

Section PersonaFacts.
Context `{Hooks} `{NotionService}.

(** X11.  Loading the persona asks the lookup exactly once, under the
    Notion name of the bot, and leaves the conversation store, the
    cooldown state and the configuration as they were. *)
Theorem load_character_settings_footprint w self :
  let res := load_character_settings w self in
  cfg res.1.2 = cfg self
  ∧ conversation_manager res.1.2 = conversation_manager self
  ∧ in_cooldown res.1.2 = in_cooldown self
  ∧ cooldown_until res.1.2 = cooldown_until self
  ∧ filter is_lookup res.2 = [GetCharacter (notion_character_name (cfg self))].
Proof.
  unfold load_character_settings.
  unfold try_except, bind, await, lift, get, modify, logger, emit, ret. simpl.
  destruct (get_character w) as [found | e]; simpl.
  - destruct (character_truthy found); simpl;
      destruct (format_character_prompt _ _); simpl;
      try destruct (PyStr.truthy (base_role (cfg self))); simpl; done.
  - destruct (PyStr.truthy (base_role (cfg self))); simpl; done.
Qed.

(** X12.  When the lookup finds a non-empty persona and the prompt
    rendering succeeds, the bot holds exactly that persona and that
    prompt, and neither a warning nor an error is logged. *)
Theorem load_character_settings_found w self c p :
  get_character w = Ok (Some c) → c ≠ ∅ →
  format_character_prompt c (base_role (cfg self)) = Ok p →
  let res := load_character_settings w self in
  res.1.2 = set_system_prompt (set_character self (Some c)) (Some p)
  ∧ filter (is_log_at WARNING) res.2 = [] ∧ filter (is_log_at ERROR) res.2 = [].
Proof.
  intros Hget Hne Hfmt. unfold load_character_settings.
  unfold try_except, bind, await, lift, get, modify, logger, emit, ret. simpl.
  rewrite Hget. simpl. unfold character_truthy.
  rewrite (bool_decide_eq_false_2 _ Hne). simpl. rewrite Hfmt. simpl. done.
Qed.

(** X13.  When the lookup raises, or the prompt rendering raises for the
    persona in use, the error is logged with the exception's text, the
    persona becomes the fixed default, and the system prompt is composed
    on the spot: "You are <name>." followed by a blank line and the base
    role, or by " Be friendly and helpful." when the base role is
    empty. *)
Theorem load_character_settings_fallback w self e :
  (get_character w = Raise e
   ∨ ∃ found, get_character w = Ok found
       ∧ format_character_prompt
           (if character_truthy found then default ∅ found
            else default_character (notion_character_name (cfg self)))
           (base_role (cfg self)) = Raise e) →
  let res := load_character_settings w self in
  let name := notion_character_name (cfg self) in
  res.1.1 = Ok tt
  ∧ character res.1.2 = Some (default_character name)
  ∧ system_prompt res.1.2 = Some (fallback_prompt name (base_role (cfg self)))
  ∧ last res.2 = Some (Log ERROR ("Failed to load character settings: " +:+ e)).
Proof.
  intros Hfail. unfold load_character_settings, fallback_prompt.
  unfold try_except, bind, await, lift, get, modify, logger, emit, ret. simpl.
  destruct Hfail as [-> | (found & -> & Hfmt)]; simpl.
  - destruct (PyStr.truthy (base_role (cfg self))); simpl; done.
  - destruct (character_truthy found); simpl; rewrite Hfmt; simpl;
      destruct (PyStr.truthy (base_role (cfg self))); simpl; done.
Qed.

(** X14.  With a channel configured, [on_ready] first loads the persona
    and then, if the channel is found, sends exactly one message to it:
    the introduction of the persona just loaded.  If the channel is not
    found it sends nothing and logs the channel id as an error.  In both
    cases the bot is left as the loading left it. *)
Theorem on_ready_introduction w user_name self :
  channel_id (cfg self) ≠ 0 →
  let loaded := (load_character_settings w self).1.2 in
  let res := on_ready w user_name self in
  res.1.2 = loaded
  ∧ (is_Some (get_channel w) →
     filter is_send res.2
     = [ChannelSend (channel_id (cfg self)) (generate_introduction_message loaded)])
  ∧ (get_channel w = None →
     res.1.1 = Ok tt ∧ filter is_send res.2 = []
     ∧ last res.2 = Some (Log ERROR ("Could not find channel with ID: "
                                     +:+ pretty (channel_id (cfg self))))).
Proof.
  intros Hz. cbv zeta.
  destruct (load_character_settings_frame w self) as (Hok & Hcfg & Hsend).
  unfold on_ready, bind, get, await, logger, emit, ret.
  destruct (load_character_settings w self) as [[r self1] t1]. simpl in Hok, Hcfg, Hsend.
  subst r. rewrite Hcfg, (bool_decide_eq_false_2 _ Hz). cbn [negb].
  split_and!.
  - destruct (get_channel w); [destruct (channel_send w) |]; reflexivity.
  - intros [name ->]. destruct (channel_send w); cbn [snd app];
      rewrite filter_cons, filter_app, Hsend; reflexivity.
  - intros ->. cbn [fst snd app]. rewrite filter_cons, filter_app, Hsend.
    split_and!; [done | done |].
    rewrite app_comm_cons, last_snoc. reflexivity.
Qed.

End PersonaFacts.

Lemma load_character_settings_found_witness :
  character (@load_character_settings SpecNotionService found_world fresh_bot).1.2
  = Some full_character.
Proof.
  destruct (@load_character_settings_found SpecNotionService found_world fresh_bot
              full_character
              ("You take part in a chat." +:+ two_newlines +:+ render_persona full_character))
    as (Hstate & _).
  - reflexivity.
  - unfold full_character. apply insert_non_empty.
  - reflexivity.
  - rewrite Hstate. reflexivity.
Defined.

Lemma load_character_settings_fallback_witness :
  system_prompt (@load_character_settings SpecNotionService lost_channel_world fresh_bot).1.2
  = Some ("You are zoo-cat." +:+ two_newlines +:+ "You take part in a chat.").
Proof.
  destruct (@load_character_settings_fallback SpecNotionService lost_channel_world fresh_bot
              "notion is down") as (_ & _ & Hprompt & _).
  - left. reflexivity.
  - rewrite Hprompt. reflexivity.
Defined.

Lemma on_ready_introduction_witness :
  filter is_send (@on_ready BaseHooks SpecNotionService calm_world "Tama#0001" fresh_bot).2
  = [ChannelSend 77
       (@generate_introduction_message BaseHooks
          (@load_character_settings SpecNotionService calm_world fresh_bot).1.2)].
Proof.
  destruct (@on_ready_introduction BaseHooks SpecNotionService calm_world "Tama#0001"
              fresh_bot) as (_ & Hsend & _).
  - discriminate.
  - apply Hsend. eexists. reflexivity.
Defined.

(** ** More on the cooldown in the event loop *)

Lemma wake_frame clock timers self :
  let self' := (wake clock timers self).1.1 in
  cfg self' = cfg self ∧ character self' = character self
  ∧ system_prompt self' = system_prompt self
  ∧ cooldown_until self' = cooldown_until self
  ∧ conversation_manager self' = conversation_manager self.
Proof.
  revert self. induction timers as [| d timers IH]; intros self; [done |].
  simpl. destruct (d <=? clock).
  - specialize (IH (set_in_cooldown self false)).
    destruct (wake clock timers (set_in_cooldown self false)) as [[? ?] ?]. exact IH.
  - specialize (IH self). destruct (wake clock timers self) as [[? ?] ?]. exact IH.
Qed.

Section CooldownFacts.
Context `{Hooks}.

Lemma on_message_frame now w message self :
  let self' := (on_message now w message self).1 in
  cfg self' = cfg self ∧ character self' = character self
  ∧ system_prompt self' = system_prompt self.
Proof. unfold on_message. repeat case_match; done. Qed.

Lemma on_message_cooling_id now w message self :
  in_cooldown self = true → (on_message now w message self).1 = self.
Proof. intros Hc. unfold on_message. rewrite Hc. repeat case_match; reflexivity. Qed.

Lemma step_within s ev :
  active s ∨ (∃ d, cooling_within s d) →
  active (step s ev) ∨ (∃ d, cooling_within (step s ev) d).
Proof.
  intros [Ha | (d & Hc & Hle)].
  - destruct (step_active s ev Ha) as [Ha' | [d Hc']]; [left; exact Ha' |].
    right. exists d. split; [exact Hc' |].
    destruct Ha as [Hflag Htimers]. destruct Hc' as (Hflag' & Htimers' & _).
    destruct ev as [m w | m w | n].
    + destruct (step_inbound s m w) as (Hb & Hclk & Ht).
      rewrite Hb in Hflag'. rewrite Hclk.
      destruct (on_message_enters (clock s) w m (bot s) Hflag) as [[Hf _] | [_ Hr]];
        [congruence |].
      rewrite Ht, Htimers, Hr in Htimers'. injection Htimers' as <-.
      pose proof (randint_range 1 3 (cooldown_draw w) ltac:(lia)). lia.
    + exfalso. destruct (step_reply s m w) as (_ & _ & Ht).
      rewrite Ht, Htimers in Htimers'. discriminate.
    + exfalso. destruct (step_elapse s n) as (_ & _ & Ht).
      rewrite Htimers, wake_nil in Ht. rewrite Ht in Htimers'. discriminate.
  - destruct (step_cooling s d ev Hc) as [[_ Hc'] | (_ & Ha & _)]; [| left; exact Ha].
    right. exists d. split; [exact Hc' |].
    pose proof (step_clock s ev) as Hmono. lia.
Qed.

Lemma run_within evs : ∀ s,
  active s ∨ (∃ d, cooling_within s d) →
  active (run s evs) ∨ (∃ d, cooling_within (run s evs) d).
Proof.
  induction evs as [| ev evs IH]; intros s Hs; [exact Hs |].
  change (run s (ev :: evs)) with (run (step s ev) evs). apply IH, step_within, Hs.
Qed.

(** X15.  From a bot that is not cooling down, after any run of events:
    a sleeping reset timer is due in the future and no later than three
    minutes from now, so three minutes of passing time always leave the
    bot active; and a cooldown that an inbound message starts lasts at
    least one and at most three minutes. *)
Theorem cooldown_lasts_one_to_three_minutes self clock0 evs :
  in_cooldown self = false →
  let s := run (boot self clock0) evs in
  (∀ d, d ∈ timers s → clock s < d ≤ clock s + 180)
  ∧ active (step s (Elapse 180))
  ∧ (∀ message w d,
       active s → d ∈ timers (step s (Inbound message w)) →
       clock s + 60 ≤ d ≤ clock s + 180).
Proof.
  intros Hflag s.
  assert (active (boot self clock0)) as Hboot by (split; [exact Hflag | reflexivity]).
  pose proof (run_within evs _ (or_introl Hboot)) as Hs. fold s in Hs.
  split_and!.
  - intros d Hin. destruct Hs as [[_ Ht] | (d' & (_ & Ht & Hlt) & Hle)];
      rewrite Ht in Hin.
    + by apply elem_of_nil in Hin.
    + apply list_elem_of_singleton in Hin. subst d'. lia.
  - destruct Hs as [Ha | (d & Hc & Hle)].
    + destruct Ha as [Hf Ht]. split.
      * destruct (step_elapse s 180) as (-> & _ & _). rewrite Ht, wake_nil. exact Hf.
      * destruct (step_elapse s 180) as (_ & _ & ->). rewrite Ht, wake_nil. reflexivity.
    + destruct (step_cooling s d (Elapse 180) Hc) as [[Hlt _] | (_ & Ha & _)];
        [| exact Ha].
      destruct (step_elapse s 180) as (_ & Hclk & _). lia.
  - intros message w d [Hf Ht] Hin.
    destruct (step_inbound s message w) as (_ & _ & Ht'). rewrite Ht', Ht in Hin.
    destruct (on_message_enters (clock s) w message (bot s) Hf) as [[_ Hr] | [_ Hr]];
      rewrite Hr in Hin; simpl in Hin.
    + by apply elem_of_nil in Hin.
    + apply list_elem_of_singleton in Hin. subst d.
      pose proof (randint_range 1 3 (cooldown_draw w) ltac:(lia)). lia.
Qed.

(** X17.  No run of inbound messages, response tasks and passing time
    changes the configuration, the persona or the system prompt of the
    bot. *)
Theorem run_keeps_configuration s evs :
  cfg (bot (run s evs)) = cfg (bot s)
  ∧ character (bot (run s evs)) = character (bot s)
  ∧ system_prompt (bot (run s evs)) = system_prompt (bot s).
Proof.
  revert s. induction evs as [| ev evs IH]; intros s; [done |].
  change (run s (ev :: evs)) with (run (step s ev) evs).
  destruct (IH (step s ev)) as (-> & -> & ->).
  destruct ev as [m w | m w | n].
  - destruct (step_inbound s m w) as (-> & _ & _). apply on_message_frame.
  - destruct (step_reply s m w) as (-> & _ & _).
    destruct (respond_to_message_frame w m (bot s)) as (-> & _ & _ & -> & ->). done.
  - destruct (step_elapse s n) as (-> & _ & _).
    destruct (wake_frame (clock s + Z.of_N n) (timers s) (bot s)) as (-> & -> & -> & _).
    done.
Qed.

End CooldownFacts.

Lemma cooldown_lasts_one_to_three_minutes_witness :
  active (@step BaseHooks
            (@run BaseHooks (boot one_turn_bot 100)
               [Inbound hello calm_world; Elapse 30; Inbound hello calm_world])
            (Elapse 180)).
Proof.
  apply (@cooldown_lasts_one_to_three_minutes BaseHooks one_turn_bot 100
           [Inbound hello calm_world; Elapse 30; Inbound hello calm_world]).
  reflexivity.
Defined.


(** ** The introduction of a bot whose persona was not found *)

Lemma default_character_lacks name :
  default_character name !! "interests" = None
  ∧ default_character name !! "background" = None.
Proof. unfold default_character. split; by simplify_map_eq. Qed.

Section DefaultIntroduction.
Context `{Hooks} `{NotionService}.

Lemma load_character_settings_not_found w self :
  lookup_found (get_character w) = None →
  character (load_character_settings w self).1.2
  = Some (default_character (notion_character_name (cfg self))).
Proof.
  unfold load_character_settings.
  unfold try_except, bind, await, lift, get, modify, logger, emit, ret. simpl.
  destruct (get_character w) as [found | e]; simpl.
  - destruct (character_truthy found) eqn:Htruthy; simpl.
    + intros ->. discriminate.
    + intros _. destruct (format_character_prompt _ _); simpl;
        try destruct (PyStr.truthy (base_role (cfg self))); reflexivity.
  - intros _. destruct (PyStr.truthy (base_role (cfg self))); reflexivity.
Qed.

(** X19.  When the persona lookup finds nothing (it raises, or returns
    [None] or an empty dict), the introduction generated after loading has
    the greeting, the three lines of the default persona (personality,
    speaking style, model), the extra line of a subclass if there is one,
    and the invitation: no interests and no background line. *)
Theorem introduction_after_failed_lookup w self :
  lookup_found (get_character w) = None →
  let loaded := (load_character_settings w self).1.2 in
  intro_parts loaded
  = [ greeting self;
      "性格: Friendly and helpful";
      "話し方: Casual and conversational";
      "使用モデル: gpt-4" ]
    ++ from_option (fun extra => if PyStr.truthy extra then [extra] else []) []
         (get_additional_introduction_info loaded)
    ++ [invitation].
Proof.
  intros Hnone loaded.
  pose proof (load_character_settings_not_found w self Hnone) as Hchar. fold loaded in Hchar.
  destruct (load_character_settings_frame w self) as (_ & Hcfg & _). fold loaded in Hcfg.
  destruct (default_character_fields (notion_character_name (cfg self)))
    as (_ & Hp & Hs & _ & Hm).
  destruct (default_character_lacks (notion_character_name (cfg self))) as [Hi Hb].
  unfold intro_parts. rewrite !field_line. unfold optional_line, persona_field, greeting.
  rewrite Hchar, Hcfg. cbn [mbind option_bind]. rewrite Hp, Hs, Hi, Hb, Hm.
  destruct (get_additional_introduction_info loaded); reflexivity.
Qed.

End DefaultIntroduction.

Lemma introduction_after_failed_lookup_witness :
  @intro_parts BaseHooks
    (@load_character_settings SpecNotionService lost_channel_world fresh_bot).1.2
  = [ "こんにちは！私はTamaです。";
      "性格: Friendly and helpful";
      "話し方: Casual and conversational";
      "使用モデル: gpt-4";
      "気軽に話しかけてください！" ].
Proof.
  apply (@introduction_after_failed_lookup BaseHooks SpecNotionService
           lost_channel_world fresh_bot).
  reflexivity.
Defined.
